(** * Session analytics of the Delta agent generator

    A shallow embedding of the two log analyzers of the repository,

    - [scripts/analyze_experience.py] (class [ExperienceAnalyzer]), and
    - [experience-analyzer/tools/basic_stats.py] (the simplified helper),

    together with the properties their specification states about them.

    Modelling conventions.
    - A record of the log is a JSON object following the schema of the
      specification: [action], [session_id] and [agent_type] are optional
      strings and [cost_usd] is an optional number.  A line that decodes
      to a JSON value other than an object is outside the model: the
      loaders append such a value as it is, and the aggregators, which
      call [get] on every record, raise on it.
    - Numbers are exact rationals ([Q]); Python's binary floating point
      rounding error is outside the model.  The values [NaN],
      [Infinity] and [-Infinity], which [json.loads] accepts as numbers,
      are modelled where they decide a result that is a count: in the
      cost categories ([Float]).
    - Python dictionaries whose iteration order is observable (the grouping
      tables and the result mappings) are insertion-ordered association
      lists; dictionaries of which only lookups, sizes and value counts are
      used (session outcomes, the resume counter) are [gmap]s. *)

From Stdlib Require Import QArith Ascii Sorted.
From stdpp Require Import gmap strings list fin_maps.

Close Scope Q_scope.
Open Scope string_scope.
Open Scope list_scope.

(** ** Python built-ins and the [statistics] module, on exact rationals *)

Module Py.

#[global] Instance Qle_dec (x y : Q) : Decision (x <= y)%Q :=
  Z.le_dec (Qnum x * QDen y)%Z (Qnum y * QDen x)%Z.
#[global] Instance Qlt_dec (x y : Q) : Decision (x < y)%Q :=
  Z.lt_dec (Qnum x * QDen y)%Z (Qnum y * QDen x)%Z.

(** [len(l)] as a number. *)
Definition len {A} (l : list A) : Q := inject_Z (Z.of_nat (length l)).

(** Nearest integer, ties to the even one. *)
Definition round_half_even (q : Q) : Z :=
  let n := Qnum q in
  let d := Z.pos (Qden q) in
  let f := (n `div` d)%Z in
  match (2 * (n `mod` d) ?= d)%Z with
  | Lt => f
  | Gt => (f + 1)%Z
  | Eq => if Z.even f then f else (f + 1)%Z
  end.

(** [round(q, ndigits)]. *)
Definition round (q : Q) (ndigits : nat) : Q :=
  let s := (10 ^ Z.of_nat ndigits)%Z in
  (round_half_even (q * inject_Z s) # Z.to_pos s)%Q.

(** [sum(l)]: left to right, starting from [0]. *)
Definition sum (l : list Q) : Q := foldl Qplus 0%Q l.

(** [min(l)] and [max(l)]: the first smallest / largest element.  Python
    raises [ValueError] on an empty list; every call in the analyzers is
    guarded by the list being non-empty, and the model returns [0]
    there. *)
Definition min (l : list Q) : Q :=
  match l with
  | [] => 0%Q
  | x :: l' => foldl (fun m y => if decide (y < m)%Q then y else m) x l'
  end.

Definition max (l : list Q) : Q :=
  match l with
  | [] => 0%Q
  | x :: l' => foldl (fun m y => if decide (m < y)%Q then y else m) x l'
  end.

(** [sorted(l)], by stable insertion. *)
Fixpoint insert_sorted (x : Q) (l : list Q) : list Q :=
  match l with
  | [] => [x]
  | y :: l' => if decide (x < y)%Q then x :: y :: l' else y :: insert_sorted x l'
  end.

Definition sorted (l : list Q) : list Q :=
  foldl (fun acc x => insert_sorted x acc) [] l.

(** [statistics.mean]: raises [StatisticsError] on empty data (guarded at
    every call); the model returns [0 / 0 = 0] there. *)
Definition mean (l : list Q) : Q := (sum l / len l)%Q.

(** [statistics.median]: the middle element of the sorted data, or the
    mean of the two middle elements. *)
Definition median (l : list Q) : Q :=
  let data := sorted l in
  let n := length data in
  if Nat.even n
  then ((nth (n / 2 - 1) data 0 + nth (n / 2) data 0) / 2)%Q
  else nth (n / 2) data 0%Q.

(** Sample variance, the square of [statistics.stdev]. *)
Definition variance (l : list Q) : Q :=
  let m := mean l in
  (sum (map (fun x => (x - m) * (x - m)) l) / (len l - 1))%Q.

Section Stdev.
(** The square root has no exact rational value: it is a parameter. *)
Variable sqrt : Q -> Q.

(** [statistics.stdev]; needs two data points (guarded at its call). *)
Definition stdev (l : list Q) : Q := sqrt (variance l).
End Stdev.

(** A square root truncated to six decimals, to run examples. *)
Definition sqrt_micro (q : Q) : Q :=
  (Z.sqrt ((Qnum q * 10 ^ 12) `div` Z.pos (Qden q)) # 1000000)%Q.

End Py.

(** ** Insertion-ordered dictionaries *)

Section Dict.
Context {V : Type}.

(** [d.get(k)]. *)
Fixpoint dict_get (k : string) (d : list (string * V)) : option V :=
  match d with
  | [] => None
  | (k', v) :: d' => if decide (k = k') then Some v else dict_get k d'
  end.

(** [d[k] = v]: an existing key keeps its position, a new one goes last. *)
Fixpoint dict_set (k : string) (v : V) (d : list (string * V)) : list (string * V) :=
  match d with
  | [] => [(k, v)]
  | (k', v') :: d' =>
      if decide (k = k') then (k, v) :: d' else (k', v') :: dict_set k v d'
  end.
End Dict.

(** ** The records of the log *)

Record session := {
  action : option string;
  session_id : option string;
  agent_type : option string;
  cost_usd : option Q
}.

(** Truthiness of [s.get('session_id')]: absent and empty are both false. *)
Definition truthy (o : option string) : option string :=
  match o with
  | Some "" => None
  | _ => o
  end.

(** [line.strip()] is empty: the line has only white space.  Lines are
    byte strings; the white space of [str.strip] within ASCII is modelled. *)
Definition is_space (c : Ascii.ascii) : bool :=
  let n := Ascii.nat_of_ascii c in
  ((9 <=? n)%nat && (n <=? 13)%nat) || ((28 <=? n)%nat && (n <=? 32)%nat).

Fixpoint blank (line : string) : bool :=
  match line with
  | EmptyString => true
  | String c rest => is_space c && blank rest
  end.

(** [if l:] on a list. *)
Definition nonempty {A} (l : list A) : bool :=
  match l with
  | [] => false
  | _ :: _ => true
  end.

(** [for line in f: if line.strip(): sessions.append(json.loads(line))].
    The decoder returns [None] where [json.loads] raises [JSONDecodeError];
    the exception leaves the loop, which is reported by the flag, and the
    records appended so far stay in the list. *)
Section ReadLines.
Variable json_loads : string -> option session.

Fixpoint read_lines (lines : list string) (sessions : list session)
  : list session * bool :=
  match lines with
  | [] => (sessions, false)
  | line :: rest =>
      if blank line then read_lines rest sessions
      else match json_loads line with
           | Some s => read_lines rest (sessions ++ [s])
           | None => (sessions, true)
           end
  end.
End ReadLines.

(** ** The result of the cost analysis, shared by both tools *)

Record cost_stats := {
  cs_count : nat;
  cs_total : Q;
  cs_avg : Q;
  cs_min : Q;
  cs_max : Q;
  cs_median : Q;
  cs_stdev : Q
}.

Record category := { range : string; cat_count : nat }.

Record categories := {
  simple : category;
  medium : category;
  complex : category
}.

(** A value of the result of [analyze_costs]: the statistics of one action,
    or the block stored under the key ["categories"]. *)
Inductive cost_entry :=
| ActionStats (st : cost_stats)
| Categories (c : categories).

(** ** scripts/analyze_experience.py *)

Module AnalyzeExperience.

Record ExperienceAnalyzer := {
  sessions_file : string;
  sessions : list session
}.

(** What [load_sessions] prints on [sys.stderr]. *)
Inductive diagnostic :=
| Warning_malformed_json (sessions_file : string).

Section Loader.
(** The files that exist, as their lines, and the JSON decoder. *)
Variable fs : string -> option (list string).
Variable json_loads : string -> option session.

Definition load_sessions (self : ExperienceAnalyzer)
  : ExperienceAnalyzer * list diagnostic :=
  match fs (sessions_file self) with
  | None =>
      (* FileNotFoundError: no history yet *)
      ({| sessions_file := sessions_file self; sessions := [] |}, [])
  | Some lines =>
      let '(ss, malformed) := read_lines json_loads lines (sessions self) in
      ({| sessions_file := sessions_file self; sessions := ss |},
       if malformed then [Warning_malformed_json (sessions_file self)] else [])
  end.

(** [ExperienceAnalyzer(sessions_file)]. *)
Definition init (sessions_file : string) : ExperienceAnalyzer * list diagnostic :=
  load_sessions {| sessions_file := sessions_file; sessions := [] |}.
End Loader.

Record summary := {
  total_executions : nat;
  completed : nat;
  failed : nat;
  success_rate : Q;
  total_cost_usd : Q;
  avg_cost_per_agent : Q
}.

Definition get_summary (self : ExperienceAnalyzer) : summary :=
  let executions := filter (fun s => action s = Some "execute") (sessions self) in
  let completed := filter (fun s => action s = Some "complete") (sessions self) in
  let failed := filter (fun s => action s = Some "failed") (sessions self) in
  let total_cost :=
    Py.sum (map (fun s => default 0%Q (cost_usd s))
                (filter (fun s => is_Some (cost_usd s)) (sessions self))) in
  {| total_executions := length executions;
     completed := length completed;
     failed := length failed;
     success_rate :=
       if nonempty executions then (Py.len completed / Py.len executions)%Q else 0%Q;
     total_cost_usd := Py.round total_cost 2;
     avg_cost_per_agent :=
       if nonempty completed then Py.round (total_cost / Py.len completed) 2 else 0%Q |}.

(** One slot of [type_data], a [defaultdict]. *)
Record type_entry := {
  td_count : nat;
  td_costs : list Q;
  td_success : nat;
  td_failed : nat
}.

Definition type_entry_new : type_entry :=
  {| td_count := 0; td_costs := []; td_success := 0; td_failed := 0 |}.

(** The body of the loop over the sessions in [analyze_agent_types]. *)
Definition type_data_step (type_data : list (string * type_entry)) (s : session)
  : list (string * type_entry) :=
  let agent_type := default "unknown" (agent_type s) in
  let e := default type_entry_new (dict_get agent_type type_data) in
  if decide (action s = Some "execute") then
    dict_set agent_type
      {| td_count := S (td_count e);
         td_costs := match cost_usd s with
                     | Some c => td_costs e ++ [c]
                     | None => td_costs e
                     end;
         td_success := td_success e;
         td_failed := td_failed e |} type_data
  else if decide (action s = Some "complete") then
    dict_set agent_type
      {| td_count := td_count e; td_costs := td_costs e;
         td_success := S (td_success e); td_failed := td_failed e |} type_data
  else if decide (action s = Some "failed") then
    dict_set agent_type
      {| td_count := td_count e; td_costs := td_costs e;
         td_success := td_success e; td_failed := S (td_failed e) |} type_data
  else type_data.

Record agent_type_stats := {
  at_count : nat;
  at_success : nat;
  at_failed : nat;
  at_success_rate : Q;
  avg_cost : Q;
  min_cost : Q;
  max_cost : Q;
  median_cost : Q
}.

Definition agent_type_entry (data : type_entry) : agent_type_stats :=
  let costs := td_costs data in
  {| at_count := td_count data;
     at_success := td_success data;
     at_failed := td_failed data;
     at_success_rate :=
       if decide (0 < td_count data)
       then (inject_Z (Z.of_nat (td_success data)) / inject_Z (Z.of_nat (td_count data)))%Q
       else 0%Q;
     avg_cost := if nonempty costs then Py.round (Py.mean costs) 2 else 0%Q;
     min_cost := if nonempty costs then Py.round (Py.min costs) 2 else 0%Q;
     max_cost := if nonempty costs then Py.round (Py.max costs) 2 else 0%Q;
     median_cost :=
       if nonempty costs && (1 <? length costs)%nat
       then Py.round (Py.median costs) 2
       else if nonempty costs then hd 0%Q costs else 0%Q |}.

Definition analyze_agent_types (self : ExperienceAnalyzer)
  : list (string * agent_type_stats) :=
  let type_data := foldl type_data_step [] (sessions self) in
  foldl (fun result '(agent_type, data) =>
           if decide (0 < td_count data)
           then dict_set agent_type (agent_type_entry data) result
           else result)
        [] type_data.

(** The body of the loop over the sessions in [analyze_costs]. *)
Definition costs_by_action_step (costs_by_action : list (string * list Q))
    (s : session) : list (string * list Q) :=
  match cost_usd s with
  | Some c =>
      let action := default "unknown" (action s) in
      dict_set action (default [] (dict_get action costs_by_action) ++ [c])
               costs_by_action
  | None => costs_by_action
  end.

Section Costs.
Variable sqrt : Q -> Q.

Definition action_entry (costs : list Q) : cost_stats :=
  {| cs_count := length costs;
     cs_total := Py.round (Py.sum costs) 2;
     cs_avg := Py.round (Py.mean costs) 2;
     cs_min := Py.round (Py.min costs) 2;
     cs_max := Py.round (Py.max costs) 2;
     cs_median :=
       if (1 <? length costs)%nat then Py.round (Py.median costs) 2
       else hd 0%Q costs;
     cs_stdev :=
       if (1 <? length costs)%nat then Py.round (Py.stdev sqrt costs) 2
       else 0%Q |}.

Definition analyze_costs (self : ExperienceAnalyzer) : list (string * cost_entry) :=
  let costs_by_action := foldl costs_by_action_step [] (sessions self) in
  let result :=
    foldl (fun result '(action, costs) =>
             if nonempty costs
             then dict_set action (ActionStats (action_entry costs)) result
             else result)
          [] costs_by_action in
  let all_costs :=
    map (fun s => default 0%Q (cost_usd s))
        (filter (fun s => is_Some (cost_usd s) /\ action s = Some "execute")
                (sessions self)) in
  if nonempty all_costs then
    dict_set "categories"
      (Categories
         {| simple := {| range := "$0.05-$0.15";
                         cat_count := length (filter (fun c => (c <= 0.15)%Q) all_costs) |};
            medium := {| range := "$0.15-$0.40";
                         cat_count := length (filter (fun c => (0.15 < c)%Q /\ (c <= 0.40)%Q) all_costs) |};
            complex := {| range := "$0.40+";
                          cat_count := length (filter (fun c => (0.40 < c)%Q) all_costs) |} |})
      result
  else result.
End Costs.

Inductive outcome := Success | Failed.

#[global] Instance outcome_eq_dec : EqDecision outcome.
Proof. solve_decision. Defined.

(** The local table [session_outcomes] of [analyze_success]: the completed
    sessions are entered first, the failed ones after them. *)
Definition session_outcomes (self : ExperienceAnalyzer) : gmap string outcome :=
  let successes := filter (fun s => action s = Some "complete") (sessions self) in
  let failures := filter (fun s => action s = Some "failed") (sessions self) in
  let session_outcomes :=
    foldl (fun (m : gmap string outcome) s =>
             match truthy (session_id s) with
             | Some sid => <[sid := Success]> m
             | None => m
             end) ∅ successes in
  foldl (fun (m : gmap string outcome) s =>
           match truthy (session_id s) with
           | Some sid => <[sid := Failed]> m
           | None => m
           end) session_outcomes failures.

Record success_metrics := {
  total_attempts : nat;
  successful : nat;
  sm_failed : nat;
  sm_success_rate : Q;
  failure_rate : Q
}.

Definition analyze_success (self : ExperienceAnalyzer) : success_metrics :=
  let session_outcomes := session_outcomes self in
  let values := (map_to_list session_outcomes).*2 in
  let success_count := length (filter (fun o => o = Success) values) in
  let failure_count := length (filter (fun o => o = Failed) values) in
  let total := size session_outcomes in
  {| total_attempts := total;
     successful := success_count;
     sm_failed := failure_count;
     sm_success_rate :=
       if decide (0 < total)
       then Py.round (inject_Z (Z.of_nat success_count) / inject_Z (Z.of_nat total)) 2
       else 0%Q;
     failure_rate :=
       if decide (0 < total)
       then Py.round (inject_Z (Z.of_nat failure_count) / inject_Z (Z.of_nat total)) 2
       else 0%Q |}.

Record tool_patterns := { note : string; suggestion : string }.

Definition analyze_tool_patterns (self : ExperienceAnalyzer) : tool_patterns :=
  {| note := "Tool pattern analysis requires agent config inspection";
     suggestion := "Log tool lists in sessions.jsonl for automatic analysis" |}.

Record resume_distribution := {
  zero_resumes : Z;
  one_resume : nat;
  two_plus_resumes : nat
}.

(** [max_resumes] and [distribution] are [None] when the key is omitted. *)
Record resume_patterns := {
  total_resumes : nat;
  sessions_with_resumes : nat;
  avg_resumes_per_session : Q;
  max_resumes : option nat;
  distribution : option resume_distribution
}.

(** The [Counter] of [analyze_resumes]. *)
Definition session_resumes (self : ExperienceAnalyzer) : gmap string nat :=
  let resumes := filter (fun s => action s = Some "resume") (sessions self) in
  foldl (fun (m : gmap string nat) s =>
           match truthy (session_id s) with
           | Some sid => <[sid := S (default 0 (m !! sid))]> m
           | None => m
           end) ∅ resumes.

Definition analyze_resumes (self : ExperienceAnalyzer) : resume_patterns :=
  let session_resumes := session_resumes self in
  if decide (session_resumes = ∅) then
    {| total_resumes := 0; sessions_with_resumes := 0;
       avg_resumes_per_session := 0%Q;
       max_resumes := None; distribution := None |}
  else
    let resume_counts := (map_to_list session_resumes).*2 in
    {| total_resumes := sum_list resume_counts;
       sessions_with_resumes := size session_resumes;
       avg_resumes_per_session :=
         Py.round (Py.mean (map (fun c => inject_Z (Z.of_nat c)) resume_counts)) 1;
       max_resumes := Some (max_list resume_counts);
       distribution :=
         Some {| zero_resumes :=
                   Z.of_nat (length (filter (fun s => action s = Some "complete")
                                            (sessions self)))
                   - Z.of_nat (size session_resumes);
                 one_resume := length (filter (fun c => c = 1) resume_counts);
                 two_plus_resumes := length (filter (fun c => 2 <= c) resume_counts) |} |}.

(** The advisory messages, by rule, with the values their text embeds. *)
Inductive recommendation :=
| LowSuccessRate
| HighSuccessRate
| HighAverageCost (avg_cost : Q)
| HighResumeCount (avg_resumes : Q)
| MostCommonType (agent_type : string) (count : nat)
| LimitedHistory.

(** [max(items, key=lambda x: x[1]["count"])]: the first item of largest
    count ([ValueError] on no item; the call is guarded). *)
Definition most_common (items : list (string * agent_type_stats))
  : option (string * agent_type_stats) :=
  match items with
  | [] => None
  | x :: rest =>
      Some (foldl (fun best y => if decide (at_count best.2 < at_count y.2) then y else best)
                  x rest)
  end.

Definition generate_recommendations (self : ExperienceAnalyzer) : list recommendation :=
  let summary := get_summary self in
  (* Success rate recommendations *)
  let recommendations :=
    if decide (success_rate summary < 0.70)%Q then [LowSuccessRate]
    else if decide (0.85 <= success_rate summary)%Q then [HighSuccessRate]
    else [] in
  (* Cost recommendations *)
  let avg_cost := avg_cost_per_agent summary in
  let recommendations :=
    if decide (0.50 < avg_cost)%Q
    then recommendations ++ [HighAverageCost avg_cost] else recommendations in
  (* Resume pattern recommendations *)
  let avg_resumes := avg_resumes_per_session (analyze_resumes self) in
  let recommendations :=
    if decide (2 < avg_resumes)%Q
    then recommendations ++ [HighResumeCount avg_resumes] else recommendations in
  (* Agent type recommendations *)
  let agent_types := analyze_agent_types self in
  let recommendations :=
    if decide (3 < length agent_types) then
      match most_common agent_types with
      | Some (agent_type, st) =>
          recommendations ++ [MostCommonType agent_type (at_count st)]
      | None => recommendations
      end
    else recommendations in
  (* General recommendations *)
  if decide (length (sessions self) < 5)
  then recommendations ++ [LimitedHistory] else recommendations.

(** The result of [analyze_all]; a field is [None] when the mapping has no
    such key. *)
Record analysis := {
  status : string;
  message : option string;
  total_sessions : option nat;
  summary_of : option summary;
  agent_types : option (list (string * agent_type_stats));
  cost_patterns : option (list (string * cost_entry));
  success_metrics_of : option success_metrics;
  tool_patterns_of : option tool_patterns;
  resume_patterns_of : option resume_patterns;
  recommendations : option (list recommendation)
}.

Section Report.
Variable sqrt : Q -> Q.

Definition analyze_all (self : ExperienceAnalyzer) : analysis :=
  if negb (nonempty (sessions self)) then
    {| status := "no_history";
       message := Some "No session history found";
       total_sessions := Some 0;
       summary_of := None; agent_types := None; cost_patterns := None;
       success_metrics_of := None; tool_patterns_of := None;
       resume_patterns_of := None; recommendations := None |}
  else
    {| status := "analyzed";
       message := None;
       total_sessions := Some (length (sessions self));
       summary_of := Some (get_summary self);
       agent_types := Some (analyze_agent_types self);
       cost_patterns := Some (analyze_costs sqrt self);
       success_metrics_of := Some (analyze_success self);
       tool_patterns_of := Some (analyze_tool_patterns self);
       resume_patterns_of := Some (analyze_resumes self);
       recommendations := Some (generate_recommendations self) |}.
End Report.

(** The key [k], when the field is present. *)
Definition key_if {A} (field : option A) (k : string) : list string :=
  match field with
  | Some _ => [k]
  | None => []
  end.

(** The keys of the mapping [analyze_all] returns, in order. *)
Definition keys (a : analysis) : list string :=
  ["status"]
  ++ key_if (message a) "message"
  ++ key_if (total_sessions a) "total_sessions"
  ++ key_if (summary_of a) "summary"
  ++ key_if (agent_types a) "agent_types"
  ++ key_if (cost_patterns a) "cost_patterns"
  ++ key_if (success_metrics_of a) "success_metrics"
  ++ key_if (tool_patterns_of a) "tool_patterns"
  ++ key_if (resume_patterns_of a) "resume_patterns"
  ++ key_if (recommendations a) "recommendations".

End AnalyzeExperience.

(** ** experience-analyzer/tools/basic_stats.py *)

Module BasicStats.

(** What [load_sessions] prints on [sys.stderr]. *)
Inductive diagnostic :=
| Error_malformed_json (sessions_file : string).

Section Loader.
Variable fs : string -> option (list string).
Variable json_loads : string -> option session.

Definition load_sessions (sessions_file : string) : list session * list diagnostic :=
  match fs sessions_file with
  | None => ([], [])
  | Some lines =>
      let '(sessions, malformed) := read_lines json_loads lines [] in
      if malformed then ([], [Error_malformed_json sessions_file])
      else (sessions, [])
  end.
End Loader.

Record summary := {
  total_sessions : nat;
  total_executions : nat;
  completed : nat;
  failed : nat;
  success_rate : Q;
  total_cost_usd : Q;
  avg_cost_per_agent : Q
}.

Definition get_summary (sessions : list session) : summary :=
  let executions := filter (fun s => action s = Some "execute") sessions in
  let completed := filter (fun s => action s = Some "complete") sessions in
  let failed := filter (fun s => action s = Some "failed") sessions in
  let total_cost :=
    Py.sum (map (fun s => default 0%Q (cost_usd s))
                (filter (fun s => is_Some (cost_usd s)) sessions)) in
  {| total_sessions := length sessions;
     total_executions := length executions;
     completed := length completed;
     failed := length failed;
     success_rate :=
       if nonempty executions
       then Py.round (Py.len completed / Py.len executions) 2 else 0%Q;
     total_cost_usd := Py.round total_cost 2;
     avg_cost_per_agent :=
       if nonempty completed then Py.round (total_cost / Py.len completed) 2 else 0%Q |}.

Record type_entry := {
  td_count : nat;
  td_costs : list Q;
  td_success : nat;
  td_failed : nat
}.

Definition type_entry_new : type_entry :=
  {| td_count := 0; td_costs := []; td_success := 0; td_failed := 0 |}.

Definition type_data_step (type_data : list (string * type_entry)) (s : session)
  : list (string * type_entry) :=
  let agent_type := default "unknown" (agent_type s) in
  let e := default type_entry_new (dict_get agent_type type_data) in
  if decide (action s = Some "execute") then
    dict_set agent_type
      {| td_count := S (td_count e);
         td_costs := match cost_usd s with
                     | Some c => td_costs e ++ [c]
                     | None => td_costs e
                     end;
         td_success := td_success e;
         td_failed := td_failed e |} type_data
  else if decide (action s = Some "complete") then
    dict_set agent_type
      {| td_count := td_count e; td_costs := td_costs e;
         td_success := S (td_success e); td_failed := td_failed e |} type_data
  else if decide (action s = Some "failed") then
    dict_set agent_type
      {| td_count := td_count e; td_costs := td_costs e;
         td_success := td_success e; td_failed := S (td_failed e) |} type_data
  else type_data.

Record agent_type_stats := {
  at_count : nat;
  at_success : nat;
  at_failed : nat;
  at_success_rate : Q;
  avg_cost : Q;
  min_cost : Q;
  max_cost : Q;
  median_cost : Q
}.

Definition agent_type_entry (data : type_entry) : agent_type_stats :=
  let costs := td_costs data in
  {| at_count := td_count data;
     at_success := td_success data;
     at_failed := td_failed data;
     at_success_rate :=
       if decide (0 < td_count data)
       then Py.round (inject_Z (Z.of_nat (td_success data))
                      / inject_Z (Z.of_nat (td_count data))) 2
       else 0%Q;
     avg_cost := if nonempty costs then Py.round (Py.mean costs) 2 else 0%Q;
     min_cost := if nonempty costs then Py.round (Py.min costs) 2 else 0%Q;
     max_cost := if nonempty costs then Py.round (Py.max costs) 2 else 0%Q;
     median_cost :=
       if nonempty costs && (1 <? length costs)%nat
       then Py.round (Py.median costs) 2
       else if nonempty costs then hd 0%Q costs else 0%Q |}.

Definition analyze_agent_types (sessions : list session)
  : list (string * agent_type_stats) :=
  let type_data := foldl type_data_step [] sessions in
  foldl (fun result '(agent_type, data) =>
           if decide (0 < td_count data)
           then dict_set agent_type (agent_type_entry data) result
           else result)
        [] type_data.

Definition costs_by_action_step (costs_by_action : list (string * list Q))
    (s : session) : list (string * list Q) :=
  match cost_usd s with
  | Some c =>
      let action := default "unknown" (action s) in
      dict_set action (default [] (dict_get action costs_by_action) ++ [c])
               costs_by_action
  | None => costs_by_action
  end.

Section Costs.
Variable sqrt : Q -> Q.

Definition action_entry (costs : list Q) : cost_stats :=
  {| cs_count := length costs;
     cs_total := Py.round (Py.sum costs) 2;
     cs_avg := Py.round (Py.mean costs) 2;
     cs_min := Py.round (Py.min costs) 2;
     cs_max := Py.round (Py.max costs) 2;
     cs_median :=
       if (1 <? length costs)%nat then Py.round (Py.median costs) 2
       else hd 0%Q costs;
     cs_stdev :=
       if (1 <? length costs)%nat then Py.round (Py.stdev sqrt costs) 2
       else 0%Q |}.

Definition analyze_costs (sessions : list session) : list (string * cost_entry) :=
  let costs_by_action := foldl costs_by_action_step [] sessions in
  let result :=
    foldl (fun result '(action, costs) =>
             if nonempty costs
             then dict_set action (ActionStats (action_entry costs)) result
             else result)
          [] costs_by_action in
  let all_costs :=
    map (fun s => default 0%Q (cost_usd s))
        (filter (fun s => is_Some (cost_usd s) /\ action s = Some "execute")
                sessions) in
  if nonempty all_costs then
    dict_set "categories"
      (Categories
         {| simple := {| range := "$0.05-$0.15";
                         cat_count := length (filter (fun c => (c <= 0.15)%Q) all_costs) |};
            medium := {| range := "$0.15-$0.40";
                         cat_count := length (filter (fun c => (0.15 < c)%Q /\ (c <= 0.40)%Q) all_costs) |};
            complex := {| range := "$0.40+";
                          cat_count := length (filter (fun c => (0.40 < c)%Q) all_costs) |} |})
      result
  else result.

(** The document [main] prints on standard output. *)
Record document := {
  status : string;
  message : option string;
  summary_of : summary;
  agent_types : list (string * agent_type_stats);
  cost_patterns : list (string * cost_entry)
}.

Variable fs : string -> option (list string).
Variable json_loads : string -> option session.

(** [main], on the path given on the command line (or the default one):
    the printed document and the error channel. *)
Definition main (sessions_file : string) : document * list diagnostic :=
  let '(sessions, err) := load_sessions fs json_loads sessions_file in
  if negb (nonempty sessions) then
    ({| status := "no_history";
        message := Some "No session history found";
        summary_of :=
          {| total_sessions := 0; total_executions := 0; completed := 0;
             failed := 0; success_rate := 0%Q; total_cost_usd := 0%Q;
             avg_cost_per_agent := 0%Q |};
        agent_types := [];
        cost_patterns := [] |}, err)
  else
    ({| status := "analyzed";
        message := None;
        summary_of := get_summary sessions;
        agent_types := analyze_agent_types sessions;
        cost_patterns := analyze_costs sessions |}, err).
End Costs.

End BasicStats.

(** ** Costs that are not finite

    [json.loads] also accepts the literals [NaN], [Infinity] and
    [-Infinity] as numbers.  The two infinities compare with every number
    as expected; [NaN] is neither below, equal to nor above anything: every
    comparison with it is false.  [Float.session] is a record of the log
    whose cost may be such a value, and [Float.cost_categories] is the part
    of [analyze_costs] that builds the category block (lines 138-146 of
    analyze_experience.py, lines 114-122 of basic_stats.py, the same text),
    on these records.  The statistics that [analyze_costs] computes before
    the block (lines 125-136) are not modelled on such costs: what
    [statistics.stdev] does with two or more costs of which one is not
    finite depends on the version of the module, which in some versions
    raises.  [cost_categories] is the block of the result when
    [analyze_costs] returns one. *)

Module Float.

Inductive float :=
| Number (q : Q)
| Infinity
| NegInfinity
| NaN.

(** [x <= y] and [x < y] on floats. *)
Definition le (x y : float) : Prop :=
  match x, y with
  | NaN, _ | _, NaN => False
  | NegInfinity, _ | _, Infinity => True
  | Number a, Number b => (a <= b)%Q
  | _, _ => False
  end.

Definition lt (x y : float) : Prop :=
  match x, y with
  | NaN, _ | _, NaN => False
  | NegInfinity, NegInfinity | Infinity, Infinity => False
  | NegInfinity, _ | _, Infinity => True
  | Number a, Number b => (a < b)%Q
  | _, _ => False
  end.

#[global] Instance le_dec x y : Decision (le x y).
Proof. destruct x, y; cbn; apply _. Defined.

#[global] Instance lt_dec x y : Decision (lt x y).
Proof. destruct x, y; cbn; apply _. Defined.

Record session := {
  action : option string;
  session_id : option string;
  agent_type : option string;
  cost_usd : option float
}.

(** The category block: [Some] is the value stored under ["categories"],
    [None] leaves the result without the block. *)
Definition cost_categories (sessions : list session) : option categories :=
  let all_costs :=
    map (fun s => default (Number 0) (cost_usd s))
        (filter (fun s => is_Some (cost_usd s) /\ action s = Some "execute")
                sessions) in
  if nonempty all_costs then
    Some {| simple := {| range := "$0.05-$0.15";
                         cat_count := length (filter (fun c => le c (Number 0.15)) all_costs) |};
            medium := {| range := "$0.15-$0.40";
                         cat_count := length (filter (fun c => lt (Number 0.15) c /\ le c (Number 0.40)) all_costs) |};
            complex := {| range := "$0.40+";
                          cat_count := length (filter (fun c => lt (Number 0.40) c) all_costs) |} |}
  else None.

End Float.

(** ** A JSON decoder for the lines of the examples

    [json.loads] is a library function; the loaders above take it as a
    parameter.  To run them on concrete files, this module decodes the flat
    objects of the record schema: string keys, string and number values, no
    escape sequences, no exponents, no nesting.  On these lines it returns
    what [json.loads] returns, and it answers [None] on the malformed lines
    on which [json.loads] raises [JSONDecodeError].  Valid JSON outside the
    fragment is not decoded either, and is not used in any example. *)

Module Json.

Inductive token :=
| TLBrace | TRBrace | TColon | TComma
| TString (s : string)
| TNumber (q : Q).

Definition quote : Ascii.ascii := Ascii.ascii_of_nat 34.
Definition backslash : Ascii.ascii := Ascii.ascii_of_nat 92.

Definition is_digit (c : Ascii.ascii) : bool :=
  let n := Ascii.nat_of_ascii c in (48 <=? n)%nat && (n <=? 57)%nat.

Definition is_json_space (c : Ascii.ascii) : bool :=
  let n := Ascii.nat_of_ascii c in
  (n =? 32)%nat || (n =? 9)%nat || (n =? 10)%nat || (n =? 13)%nat.

Fixpoint digits_value (acc : Z) (s : string) : option Z :=
  match s with
  | EmptyString => Some acc
  | String c rest =>
      if is_digit c
      then digits_value (acc * 10 + Z.of_nat (Ascii.nat_of_ascii c - 48))%Z rest
      else None
  end.

(** The text before the first dot, and the text after it. *)
Fixpoint split_dot (s : string) : string * option string :=
  match s with
  | EmptyString => (EmptyString, None)
  | String c rest =>
      if Ascii.eqb c "."%char then (EmptyString, Some rest)
      else let '(i, f) := split_dot rest in (String c i, f)
  end.

Definition parse_unsigned (s : string) : option Q :=
  let '(i, f) := split_dot s in
  match i with
  | EmptyString => None
  | String c rest =>
      if Ascii.eqb c "0"%char && negb (String.eqb rest EmptyString) then None
      else
        iv ← digits_value 0 i;
        match f with
        | None => Some (inject_Z iv)
        | Some EmptyString => None
        | Some fr =>
            fv ← digits_value 0 fr;
            let scale := (10 ^ Z.of_nat (String.length fr))%Z in
            Some ((iv * scale + fv) # Z.to_pos scale)%Q
        end
  end.

Definition parse_number (s : string) : option Q :=
  match s with
  | String c rest =>
      if Ascii.eqb c "-"%char then Qopp <$> parse_unsigned rest
      else parse_unsigned s
  | EmptyString => None
  end.

Inductive lex_mode :=
| Idle
| InString (text : string)
| InNumber (text : string).

(** One character outside strings and numbers. *)
Definition idle_char (c : Ascii.ascii) (acc : list token)
  : option (lex_mode * list token) :=
  if is_json_space c then Some (Idle, acc)
  else if Ascii.eqb c "{"%char then Some (Idle, acc ++ [TLBrace])
  else if Ascii.eqb c "}"%char then Some (Idle, acc ++ [TRBrace])
  else if Ascii.eqb c ":"%char then Some (Idle, acc ++ [TColon])
  else if Ascii.eqb c ","%char then Some (Idle, acc ++ [TComma])
  else if Ascii.eqb c quote then Some (InString EmptyString, acc)
  else if is_digit c || Ascii.eqb c "-"%char then Some (InNumber (String c EmptyString), acc)
  else None.

Definition end_number (text : string) (acc : list token) : option (list token) :=
  q ← parse_number text; Some (acc ++ [TNumber q]).

Fixpoint lex (mode : lex_mode) (s : string) (acc : list token) : option (list token) :=
  match s with
  | EmptyString =>
      match mode with
      | Idle => Some acc
      | InString _ => None
      | InNumber text => end_number text acc
      end
  | String c rest =>
      match mode with
      | Idle => '(m, acc') ← idle_char c acc; lex m rest acc'
      | InString text =>
          if Ascii.eqb c quote then lex Idle rest (acc ++ [TString text])
          else if Ascii.eqb c backslash || (Ascii.nat_of_ascii c <? 32)%nat then None
          else lex (InString (text +:+ String c EmptyString)) rest acc
      | InNumber text =>
          if is_digit c || Ascii.eqb c "."%char
          then lex (InNumber (text +:+ String c EmptyString)) rest acc
          else if Ascii.eqb c "e"%char || Ascii.eqb c "E"%char then None
          else acc' ← end_number text acc;
               '(m, acc'') ← idle_char c acc';
               lex m rest acc''
      end
  end.

Inductive scalar := JString (s : string) | JNumber (q : Q).

(** The members of an object, after its opening brace. *)
Fixpoint members (ts : list token) : option (list (string * scalar)) :=
  match ts with
  | TString k :: TColon :: TString v :: TRBrace :: [] => Some [(k, JString v)]
  | TString k :: TColon :: TNumber v :: TRBrace :: [] => Some [(k, JNumber v)]
  | TString k :: TColon :: TString v :: TComma :: rest =>
      m ← members rest; Some ((k, JString v) :: m)
  | TString k :: TColon :: TNumber v :: TComma :: rest =>
      m ← members rest; Some ((k, JNumber v) :: m)
  | _ => None
  end.

Definition object (ts : list token) : option (list (string * scalar)) :=
  match ts with
  | [TLBrace; TRBrace] => Some []
  | TLBrace :: rest => members rest
  | _ => None
  end.

(** Store one member in the record; a repeated key keeps its last value;
    keys outside the schema are ignored. *)
Definition set_member (s : session) (kv : string * scalar) : option session :=
  match kv with
  | (k, JString v) =>
      if decide (k = "action") then
        Some {| action := Some v; session_id := session_id s;
                agent_type := agent_type s; cost_usd := cost_usd s |}
      else if decide (k = "session_id") then
        Some {| action := action s; session_id := Some v;
                agent_type := agent_type s; cost_usd := cost_usd s |}
      else if decide (k = "agent_type") then
        Some {| action := action s; session_id := session_id s;
                agent_type := Some v; cost_usd := cost_usd s |}
      else if decide (k = "cost_usd") then None
      else Some s
  | (k, JNumber v) =>
      if decide (k = "cost_usd") then
        Some {| action := action s; session_id := session_id s;
                agent_type := agent_type s; cost_usd := Some v |}
      else if bool_decide (k = "action") || bool_decide (k = "session_id")
              || bool_decide (k = "agent_type") then None
      else Some s
  end.

Definition loads (line : string) : option session :=
  ts ← lex Idle line [];
  kvs ← object ts;
  foldl (fun s kv => s ← s; set_member s kv)
        (Some {| action := None; session_id := None;
                 agent_type := None; cost_usd := None |})
        kvs.

(** A line written with apostrophes for the double quotes of JSON. *)
Fixpoint text (s : string) : string :=
  match s with
  | EmptyString => EmptyString
  | String c rest =>
      String (if Ascii.eqb c "'"%char then quote else c) (text rest)
  end.

(** A line of a file: the text and its newline. *)
Definition line (s : string) : string :=
  text s +:+ String (Ascii.ascii_of_nat 10) EmptyString.

End Json.

(** ** The notions the specification speaks of *)

Module Spec.

(** An analyzer object holding the given records. *)
Definition analyzer (sessions : list session) : AnalyzeExperience.ExperienceAnalyzer :=
  {| AnalyzeExperience.sessions_file := ".claude-lab/sessions.jsonl";
     AnalyzeExperience.sessions := sessions |}.

(** A line that is not blank and does not decode. *)
Definition malformed (json_loads : string -> option session) (line : string) : Prop :=
  blank line = false /\ json_loads line = None.

#[global] Instance malformed_dec json_loads line : Decision (malformed json_loads line).
Proof. unfold malformed. apply _. Defined.

(** The records of a file as if its malformed lines were absent. *)
Definition valid_records (json_loads : string -> option session)
    (lines : list string) : list session :=
  omap json_loads (filter (fun line => blank line = false) lines).

(** The lines that precede the first malformed line. *)
Fixpoint before_malformed (json_loads : string -> option session)
    (lines : list string) : list string :=
  match lines with
  | [] => []
  | line :: rest =>
      if decide (malformed json_loads line) then []
      else line :: before_malformed json_loads rest
  end.

(** The outcome a terminal record stands for. *)
Definition terminal_outcome (s : session) : option AnalyzeExperience.outcome :=
  if decide (action s = Some "complete") then Some AnalyzeExperience.Success
  else if decide (action s = Some "failed") then Some AnalyzeExperience.Failed
  else None.

(** The last terminal record of a session id, in file order. *)
Definition last_terminal (sid : string) (sessions : list session)
  : option AnalyzeExperience.outcome :=
  last (omap terminal_outcome
             (filter (fun s => session_id s = Some sid) sessions)).

(** The session has a record of the given action under the (non-empty) id. *)
Definition has_record (act sid : string) (sessions : list session) : Prop :=
  Exists (fun s => action s = Some act /\ truthy (session_id s) = Some sid) sessions.

#[global] Instance has_record_dec act sid sessions :
  Decision (has_record act sid sessions).
Proof. unfold has_record. apply _. Defined.

(** The costs that are present, in file order, whatever the action. *)
Definition present_costs (sessions : list session) : list Q :=
  omap cost_usd sessions.

(** The costs of the [execute] records that carry one. *)
Definition costed_executions (sessions : list session) : list Q :=
  omap cost_usd (filter (fun s => action s = Some "execute") sessions).

(** The costs recorded under one action key. *)
Definition costs_of_action (a : string) (sessions : list session) : list Q :=
  omap cost_usd (filter (fun s => default "unknown" (action s) = a) sessions).

(** The costs of the [execute] records of one agent type. *)
Definition costs_of_agent_type (t : string) (sessions : list session) : list Q :=
  omap cost_usd
       (filter (fun s => action s = Some "execute"
                         /\ default "unknown" (agent_type s) = t) sessions).

(** The non-empty session ids of the [resume] records, in file order. *)
Definition resumed_ids (sessions : list session) : list string :=
  omap (fun s => truthy (session_id s))
       (filter (fun s => action s = Some "resume") sessions).

(** The number of distinct sessions with at least one resume. *)
Definition resumed_sessions (sessions : list session) : nat :=
  size (list_to_set (resumed_ids sessions) : gset string).

(** The success rate as the specification bounds it: within [[0, 1]], and
    zero exactly when nothing was executed. *)
Definition rate_in_unit_interval (rate : Q) (executions : nat) : Prop :=
  (0 <= rate)%Q /\ (rate <= 1)%Q /\ ((rate == 0)%Q <-> executions = 0).

(** The "no history" report as the specification describes it: every
    summary field present and zero, both group mappings present and empty. *)
Definition zeroed_report (report : AnalyzeExperience.analysis) : Prop :=
  (exists s, AnalyzeExperience.summary_of report = Some s
             /\ AnalyzeExperience.total_executions s = 0
             /\ AnalyzeExperience.completed s = 0
             /\ AnalyzeExperience.failed s = 0
             /\ (AnalyzeExperience.success_rate s == 0)%Q
             /\ (AnalyzeExperience.total_cost_usd s == 0)%Q
             /\ (AnalyzeExperience.avg_cost_per_agent s == 0)%Q)
  /\ AnalyzeExperience.agent_types report = Some []
  /\ AnalyzeExperience.cost_patterns report = Some [].

(** The three cost categories. *)
Definition is_simple (c : Q) : Prop := (c <= 0.15)%Q.
Definition is_medium (c : Q) : Prop := (0.15 < c)%Q /\ (c <= 0.40)%Q.
Definition is_complex (c : Q) : Prop := (0.40 < c)%Q.

#[global] Instance is_simple_dec c : Decision (is_simple c).
Proof. unfold is_simple. apply _. Defined.
#[global] Instance is_medium_dec c : Decision (is_medium c).
Proof. unfold is_medium. apply _. Defined.
#[global] Instance is_complex_dec c : Decision (is_complex c).
Proof. unfold is_complex. apply _. Defined.

(** A record whose cost is a finite number, among the records whose cost
    may be any float. *)
Definition with_number_cost (s : session) : Float.session :=
  {| Float.action := action s;
     Float.session_id := session_id s;
     Float.agent_type := agent_type s;
     Float.cost_usd := Float.Number <$> cost_usd s |}.

(** The costs of the [execute] records that carry one, whatever the
    float. *)
Definition costed_executions_float (sessions : list Float.session)
  : list Float.float :=
  omap Float.cost_usd (filter (fun s => Float.action s = Some "execute") sessions).

(** The cost is NaN. *)
Definition is_nan (c : Float.float) : Prop := c = Float.NaN.

#[global] Instance is_nan_dec c : Decision (is_nan c).
Proof. destruct c; first [left; reflexivity | right; discriminate]. Defined.

(** The three cost categories on floats: negative infinity is below every
    bound, positive infinity above; NaN is in none. *)
Definition in_simple (c : Float.float) : Prop :=
  match c with
  | Float.Number q => is_simple q
  | Float.NegInfinity => True
  | _ => False
  end.

Definition in_medium (c : Float.float) : Prop :=
  match c with
  | Float.Number q => is_medium q
  | _ => False
  end.

Definition in_complex (c : Float.float) : Prop :=
  match c with
  | Float.Number q => is_complex q
  | Float.Infinity => True
  | _ => False
  end.

#[global] Instance in_simple_dec c : Decision (in_simple c).
Proof. destruct c; cbn; apply _. Defined.
#[global] Instance in_medium_dec c : Decision (in_medium c).
Proof. destruct c; cbn; apply _. Defined.
#[global] Instance in_complex_dec c : Decision (in_complex c).
Proof. destruct c; cbn; apply _. Defined.

(** The number of records of one action. *)
Definition count_action (act : string) (sessions : list session) : nat :=
  length (filter (fun s => action s = Some act) sessions).

(** The number of records of one action and one agent type. *)
Definition count_typed (act t : string) (sessions : list session) : nat :=
  length (filter (fun s => action s = Some act
                           /\ default "unknown" (agent_type s) = t) sessions).

(** The distinct non-empty session ids that have a record of one action. *)
Definition ids_with (act : string) (sessions : list session) : gset string :=
  list_to_set (omap (fun s => truthy (session_id s))
                    (filter (fun s => action s = Some act) sessions)).

(** The position of each advisory rule in [generate_recommendations]. *)
Definition rank (r : AnalyzeExperience.recommendation) : nat :=
  match r with
  | AnalyzeExperience.LowSuccessRate => 0
  | AnalyzeExperience.HighSuccessRate => 0
  | AnalyzeExperience.HighAverageCost _ => 1
  | AnalyzeExperience.HighResumeCount _ => 2
  | AnalyzeExperience.MostCommonType _ _ => 3
  | AnalyzeExperience.LimitedHistory => 4
  end.

(** A slot of the grouping table of [analyze_experience], as the same slot
    of [basic_stats]. *)
Definition copy_entry (e : AnalyzeExperience.type_entry) : BasicStats.type_entry :=
  {| BasicStats.td_count := AnalyzeExperience.td_count e;
     BasicStats.td_costs := AnalyzeExperience.td_costs e;
     BasicStats.td_success := AnalyzeExperience.td_success e;
     BasicStats.td_failed := AnalyzeExperience.td_failed e |}.

(** An agent-type entry of [analyze_experience] with its success rate
    rounded to two decimals. *)
Definition rounded_entry (st : AnalyzeExperience.agent_type_stats)
  : BasicStats.agent_type_stats :=
  {| BasicStats.at_count := AnalyzeExperience.at_count st;
     BasicStats.at_success := AnalyzeExperience.at_success st;
     BasicStats.at_failed := AnalyzeExperience.at_failed st;
     BasicStats.at_success_rate := Py.round (AnalyzeExperience.at_success_rate st) 2;
     BasicStats.avg_cost := AnalyzeExperience.avg_cost st;
     BasicStats.min_cost := AnalyzeExperience.min_cost st;
     BasicStats.max_cost := AnalyzeExperience.max_cost st;
     BasicStats.median_cost := AnalyzeExperience.median_cost st |}.

End Spec.

(** Records for the examples. *)
Definition rec (act : string) : session :=
  {| action := Some act; session_id := None; agent_type := None; cost_usd := None |}.

Definition rec_id (act sid : string) : session :=
  {| action := Some act; session_id := Some sid; agent_type := None; cost_usd := None |}.

Definition rec_cost (act : string) (c : Q) : session :=
  {| action := Some act; session_id := None; agent_type := None; cost_usd := Some c |}.

Definition rec_type (act t : string) : session :=
  {| action := Some act; session_id := None; agent_type := Some t; cost_usd := None |}.

(** ** Examples *)

Example loads_execute :
  Json.loads (Json.text "{'action': 'execute', 'cost_usd': 0.10, 'agent_type': 'api'}")
  = Some {| action := Some "execute"; session_id := None;
            agent_type := Some "api"; cost_usd := Some (10 # 100)%Q |}.
Proof. vm_compute. reflexivity. Qed.

Example loads_malformed : Json.loads (Json.text "{'action': 'execute'") = None.
Proof. reflexivity. Qed.

Example loads_garbage : Json.loads "not json" = None.
Proof. reflexivity. Qed.

Example spec_scenario_summary :
  AnalyzeExperience.get_summary
    (Spec.analyzer [rec_cost "execute" 0.10; rec_cost "execute" 0.20; rec "complete"])
  = {| AnalyzeExperience.total_executions := 2;
       AnalyzeExperience.completed := 1;
       AnalyzeExperience.failed := 0;
       AnalyzeExperience.success_rate := (1 # 2)%Q;
       AnalyzeExperience.total_cost_usd := 0.30%Q;
       AnalyzeExperience.avg_cost_per_agent := 0.30%Q |}.
Proof. reflexivity. Qed.

Example spec_scenario_costs :
  dict_get "categories"
    (AnalyzeExperience.analyze_costs Py.sqrt_micro
       (Spec.analyzer [rec_cost "execute" 0.10; rec_cost "execute" 0.20; rec "complete"]))
  = Some (Categories
            {| simple := {| range := "$0.05-$0.15"; cat_count := 1 |};
               medium := {| range := "$0.15-$0.40"; cat_count := 1 |};
               complex := {| range := "$0.40+"; cat_count := 0 |} |}).
Proof. reflexivity. Qed.

Example spec_scenario_stdev :
  dict_get "execute"
    (AnalyzeExperience.analyze_costs Py.sqrt_micro
       (Spec.analyzer [rec_cost "execute" 0.10; rec_cost "execute" 0.20; rec "complete"]))
  = Some (ActionStats
            {| cs_count := 2; cs_total := 0.30%Q; cs_avg := 0.15%Q;
               cs_min := 0.10%Q; cs_max := 0.20%Q; cs_median := 0.15%Q;
               cs_stdev := 0.07%Q |}).
Proof. reflexivity. Qed.

(** ** Insertion-ordered dictionaries: lookup after update *)

Section DictFacts.
Context {V : Type}.
Implicit Types (k : string) (v : V) (d : list (string * V)).

Lemma dict_get_set_eq k v d : dict_get k (dict_set k v d) = Some v.
Proof.
  induction d as [|[k' v'] d IH]; cbn [dict_get dict_set].
  - by case_decide.
  - destruct (decide (k = k')) as [->|Hne]; cbn [dict_get]; by case_decide.
Qed.

Lemma dict_get_set_ne k k' v d :
  k <> k' -> dict_get k' (dict_set k v d) = dict_get k' d.
Proof.
  intros Hne. induction d as [|[k0 v0] d IH]; cbn [dict_get dict_set].
  - case_decide; [by subst | done].
  - destruct (decide (k = k0)) as [->|Hk]; cbn [dict_get].
    + repeat case_decide; by subst.
    + case_decide; [done | apply IH].
Qed.

Lemma dict_get_set k k' v d :
  dict_get k' (dict_set k v d) = if decide (k = k') then Some v else dict_get k' d.
Proof.
  destruct (decide (k = k')) as [->|Hne].
  - apply dict_get_set_eq.
  - by apply dict_get_set_ne.
Qed.

Lemma dict_get_None k d : dict_get k d = None <-> k ∉ d.*1.
Proof.
  induction d as [|[k' v'] d IH]; cbn [dict_get fmap list_fmap fst].
  - split; [intros _; apply not_elem_of_nil | done].
  - rewrite not_elem_of_cons. case_decide as Hk.
    + split; [done | intros [? _]; done].
    + rewrite IH. tauto.
Qed.

Lemma dict_set_keys k v d :
  (dict_set k v d).*1 = if decide (k ∈ d.*1) then d.*1 else d.*1 ++ [k].
Proof.
  induction d as [|[k' v'] d IH]; cbn [dict_set fmap list_fmap fst].
  - destruct (decide (k ∈ [])) as [Hin|]; [by apply elem_of_nil in Hin | done].
  - destruct (decide (k = k')) as [->|Hne]; cbn [fmap list_fmap fst].
    + rewrite decide_True; [done | apply elem_of_cons; by left].
    + change (list_fmap _ _ fst (dict_set k v d)) with ((dict_set k v d).*1).
      rewrite IH. change (list_fmap _ _ fst d) with (d.*1).
      destruct (decide (k ∈ d.*1)) as [Hin|Hnin].
      * rewrite decide_True; [done | apply elem_of_cons; by right].
      * rewrite decide_False; [done | rewrite elem_of_cons; intros [?|?]; done].
Qed.

Lemma dict_set_NoDup k v d : NoDup d.*1 -> NoDup (dict_set k v d).*1.
Proof.
  intros Hd. rewrite dict_set_keys. destruct (decide (k ∈ d.*1)); [done |].
  apply NoDup_app. split_and!; [done | | apply NoDup_singleton].
  intros x Hx Hx'. apply list_elem_of_singleton in Hx'. by subst.
Qed.
End DictFacts.

(** ** Rates and rounding *)

Lemma ratio_nonneg (c e : nat) :
  (0 <= inject_Z (Z.of_nat c) / inject_Z (Z.of_nat e))%Q.
Proof.
  destruct e as [|e]; unfold Qle, Qdiv, Qmult, Qinv; simpl; lia.
Qed.

Lemma ratio_zero (c e : nat) :
  (inject_Z (Z.of_nat c) / inject_Z (Z.of_nat e) == 0)%Q <-> e = 0 \/ c = 0.
Proof.
  destruct e as [|e]; unfold Qeq, Qdiv, Qmult, Qinv; simpl; lia.
Qed.

Lemma ratio_le_1 (c e : nat) :
  (inject_Z (Z.of_nat c) / inject_Z (Z.of_nat e) <= 1)%Q <-> e = 0 \/ c <= e.
Proof.
  destruct e as [|e]; unfold Qle, Qdiv, Qmult, Qinv; simpl; lia.
Qed.

Lemma round_half_even_lower (q : Q) (lo : Z) :
  (inject_Z lo <= q)%Q -> (lo <= Py.round_half_even q)%Z.
Proof.
  destruct q as [n d]. unfold Qle, Py.round_half_even; simpl.
  intros Hlo.
  pose proof (Z.div_mod n (Z.pos d) ltac:(lia)) as Hdm.
  pose proof (Z.mod_pos_bound n (Z.pos d) ltac:(lia)) as Hm.
  destruct (2 * (n `mod` Z.pos d) ?= Z.pos d)%Z; [destruct (Z.even _) | |]; nia.
Qed.

Lemma round_half_even_upper (q : Q) (hi : Z) :
  (q <= inject_Z hi)%Q -> (Py.round_half_even q <= hi)%Z.
Proof.
  destruct q as [n d]. unfold Qle, Py.round_half_even; simpl.
  intros Hhi.
  pose proof (Z.div_mod n (Z.pos d) ltac:(lia)) as Hdm.
  pose proof (Z.mod_pos_bound n (Z.pos d) ltac:(lia)) as Hm.
  destruct (2 * (n `mod` Z.pos d) ?= Z.pos d)%Z eqn:Hcmp.
  - apply Z.compare_eq in Hcmp. destruct (Z.even _); nia.
  - nia.
  - apply Z.compare_gt_iff in Hcmp. nia.
Qed.

Lemma round_lower (q : Q) (lo : Z) :
  (inject_Z lo <= q)%Q -> (inject_Z lo <= Py.round q 2)%Q.
Proof.
  intros Hlo. unfold Py.round.
  change (10 ^ Z.of_nat 2)%Z with 100%Z.
  assert (Hb : (lo * 100 <= Py.round_half_even (q * inject_Z 100))%Z).
  { apply round_half_even_lower.
    destruct q as [n d]. unfold Qle in *; simpl in *. lia. }
  unfold Qle; simpl. lia.
Qed.

Lemma round_upper (q : Q) (hi : Z) :
  (q <= inject_Z hi)%Q -> (Py.round q 2 <= inject_Z hi)%Q.
Proof.
  intros Hhi. unfold Py.round.
  change (10 ^ Z.of_nat 2)%Z with 100%Z.
  assert (Hb : (Py.round_half_even (q * inject_Z 100) <= hi * 100)%Z).
  { apply round_half_even_upper.
    destruct q as [n d]. unfold Qle in *; simpl in *. lia. }
  unfold Qle; simpl. lia.
Qed.

Lemma round_zero_2 (q : Q) : (q == 0)%Q -> (Py.round q 2 == 0)%Q.
Proof.
  intros Hq. apply Qle_antisym.
  - apply (round_upper q 0). rewrite Hq. apply Qle_refl.
  - apply (round_lower q 0). rewrite Hq. apply Qle_refl.
Qed.

(** ** Summary: the success rate *)

(** C2, as stated, does not hold: one execution followed by two completions
    gives a success rate of 2, and a lone execution gives the rate 0 although
    the number of executions is 1. *)
Lemma success_rate_counterexample :
  let s1 := AnalyzeExperience.get_summary
              (Spec.analyzer [rec "execute"; rec "complete"; rec "complete"]) in
  let s2 := AnalyzeExperience.get_summary (Spec.analyzer [rec "execute"]) in
  ~ Spec.rate_in_unit_interval (AnalyzeExperience.success_rate s1)
                               (AnalyzeExperience.total_executions s1)
  /\ ~ Spec.rate_in_unit_interval (AnalyzeExperience.success_rate s2)
                                  (AnalyzeExperience.total_executions s2).
Proof.
  split.
  - intros (_ & Hle & _). vm_compute in Hle. by apply Hle.
  - intros (_ & _ & Hz). vm_compute in Hz.
    assert (1 = 0) by (by apply Hz). done.
Qed.

(** C2, amended: the success rate is [completed / executions] (rounded to two
    decimals by [basic_stats]) when something was executed and 0 otherwise.
    It is never negative; in [analyze_experience] it is 0 exactly when there
    is no execution or no completion, and at most 1 exactly when there is no
    execution or the completions do not outnumber the executions; in
    [basic_stats] it is 0 when there is no execution or no completion, and at
    most 1 when the completions do not outnumber the executions. *)
Theorem success_rate_characterised (sessions : list session) :
  let a := AnalyzeExperience.get_summary (Spec.analyzer sessions) in
  let b := BasicStats.get_summary sessions in
  let e := length (filter (fun s => action s = Some "execute") sessions) in
  let c := length (filter (fun s => action s = Some "complete") sessions) in
  let ratio := (inject_Z (Z.of_nat c) / inject_Z (Z.of_nat e))%Q in
  AnalyzeExperience.total_executions a = e
  /\ AnalyzeExperience.completed a = c
  /\ AnalyzeExperience.success_rate a = (if decide (e = 0) then 0%Q else ratio)
  /\ (0 <= AnalyzeExperience.success_rate a)%Q
  /\ ((AnalyzeExperience.success_rate a == 0)%Q <-> e = 0 \/ c = 0)
  /\ ((AnalyzeExperience.success_rate a <= 1)%Q <-> e = 0 \/ c <= e)
  /\ BasicStats.success_rate b = (if decide (e = 0) then 0%Q else Py.round ratio 2)
  /\ (0 <= BasicStats.success_rate b)%Q
  /\ (e = 0 \/ c = 0 -> (BasicStats.success_rate b == 0)%Q)
  /\ (c <= e -> (BasicStats.success_rate b <= 1)%Q).
Proof.
  intros a b e c ratio.
  assert (Ha : AnalyzeExperience.success_rate a
               = if decide (e = 0) then 0%Q else ratio).
  { subst a e ratio c. unfold AnalyzeExperience.get_summary, Py.len; simpl.
    by destruct (filter _ sessions). }
  assert (Hb : BasicStats.success_rate b
               = if decide (e = 0) then 0%Q else Py.round ratio 2).
  { subst b e ratio c. unfold BasicStats.get_summary, Py.len; simpl.
    by destruct (filter _ sessions). }
  split_and!; try done.
  - rewrite Ha. case_decide; [done | apply ratio_nonneg].
  - rewrite Ha. case_decide as He.
    + split; [by left | done].
    + apply ratio_zero.
  - rewrite Ha. case_decide as He.
    + split; [by left | done].
    + apply ratio_le_1.
  - rewrite Hb. case_decide; [done |].
    apply (round_lower ratio 0), ratio_nonneg.
  - intros Hz. rewrite Hb. case_decide as He; [done |].
    apply round_zero_2, ratio_zero. tauto.
  - intros Hle. rewrite Hb. case_decide; [done |].
    apply (round_upper ratio 1), ratio_le_1. by right.
Qed.

(** ** Summary: the total cost *)

Lemma costs_with_field (sessions : list session) :
  map (fun s => default 0%Q (cost_usd s))
      (filter (fun s => is_Some (cost_usd s)) sessions)
  = Spec.present_costs sessions.
Proof.
  unfold Spec.present_costs.
  induction sessions as [|s ss IH]; [done |].
  rewrite filter_cons. cbn [omap list_omap].
  destruct (cost_usd s) as [c|] eqn:Hc.
  - rewrite decide_True by eauto. cbn. rewrite Hc. cbn. by f_equal.
  - rewrite decide_False by (by intros [? ?]). done.
Qed.

Lemma present_costs_filter (sessions : list session) :
  Spec.present_costs (filter (fun s => is_Some (cost_usd s)) sessions)
  = Spec.present_costs sessions.
Proof.
  unfold Spec.present_costs.
  induction sessions as [|s ss IH]; [done |].
  rewrite filter_cons. cbn [omap list_omap].
  destruct (cost_usd s) as [c|] eqn:Hc.
  - rewrite decide_True by eauto. cbn [omap list_omap]. rewrite Hc. cbn.
    by f_equal.
  - rewrite decide_False by (by intros [? ?]). done.
Qed.

Lemma present_costs_relabel (relabel : session -> option string)
    (sessions : list session) :
  Spec.present_costs
    (map (fun s => {| action := relabel s; session_id := session_id s;
                      agent_type := agent_type s; cost_usd := cost_usd s |})
         sessions)
  = Spec.present_costs sessions.
Proof.
  unfold Spec.present_costs.
  induction sessions as [|s ss IH]; [done |].
  cbn. rewrite IH. done.
Qed.

(** C5: [total_cost_usd] is the sum, rounded to two decimals, of the
    [cost_usd] values of exactly the records that have the field, whatever
    their action; records without the field contribute nothing: dropping
    them, or relabelling the action of every record, leaves the total
    unchanged.  Both tools agree. *)
Theorem total_cost_sums_present_costs (sessions : list session)
    (relabel : session -> option string) :
  let total ss :=
    AnalyzeExperience.total_cost_usd (AnalyzeExperience.get_summary (Spec.analyzer ss)) in
  total sessions = Py.round (Py.sum (Spec.present_costs sessions)) 2
  /\ BasicStats.total_cost_usd (BasicStats.get_summary sessions) = total sessions
  /\ total (filter (fun s => is_Some (cost_usd s)) sessions) = total sessions
  /\ total (map (fun s => {| action := relabel s; session_id := session_id s;
                             agent_type := agent_type s; cost_usd := cost_usd s |})
                sessions)
     = total sessions.
Proof.
  intros total.
  assert (Ht : forall ss, total ss = Py.round (Py.sum (Spec.present_costs ss)) 2).
  { intros ss. subst total. cbn. by rewrite costs_with_field. }
  split_and!.
  - apply Ht.
  - rewrite Ht. cbn. by rewrite costs_with_field.
  - by rewrite !Ht, present_costs_filter.
  - by rewrite !Ht, present_costs_relabel.
Qed.

(** ** Recommendations on the success rate *)

(** C8: the low-success-rate warning is emitted exactly when the success
    rate is below 0.70, the positive note exactly when it is at least 0.85,
    and never both; between the two thresholds neither is emitted. *)
Theorem success_rate_recommendations (self : AnalyzeExperience.ExperienceAnalyzer) :
  let rate := AnalyzeExperience.success_rate (AnalyzeExperience.get_summary self) in
  let recs := AnalyzeExperience.generate_recommendations self in
  (AnalyzeExperience.LowSuccessRate ∈ recs <-> (rate < 0.70)%Q)
  /\ (AnalyzeExperience.HighSuccessRate ∈ recs <-> (0.85 <= rate)%Q)
  /\ ~ (AnalyzeExperience.LowSuccessRate ∈ recs
        /\ AnalyzeExperience.HighSuccessRate ∈ recs).
Proof.
  intros rate recs.
  assert (Hex : (rate < 0.70)%Q -> (0.85 <= rate)%Q -> False).
  { unfold Qlt, Qle; simpl. lia. }
  subst recs. unfold AnalyzeExperience.generate_recommendations.
  fold rate.
  destruct (decide (rate < 0.70)%Q) as [Hlow|Hlow];
    [| destruct (decide (0.85 <= rate)%Q) as [Hhigh|Hhigh]];
    repeat match goal with
           | |- context [decide ?P] => destruct (decide P)
           | |- context [AnalyzeExperience.most_common ?l] =>
               destruct (AnalyzeExperience.most_common l) as [[? ?]|]
           end;
    rewrite ?elem_of_app, ?elem_of_cons, ?elem_of_nil;
    intuition (try discriminate; auto).
Qed.

(** ** The two cost analyses *)

(** C10: on the same records, [analyze_costs] of [basic_stats.py] returns
    the mapping the method [ExperienceAnalyzer.analyze_costs] returns. *)
Theorem analyze_costs_same_result (sqrt : Q -> Q)
    (self : AnalyzeExperience.ExperienceAnalyzer) :
  BasicStats.analyze_costs sqrt (AnalyzeExperience.sessions self)
  = AnalyzeExperience.analyze_costs sqrt self.
Proof.
  unfold BasicStats.analyze_costs, AnalyzeExperience.analyze_costs.
  reflexivity.
Qed.

(** ** The loaders *)

Lemma read_lines_spec (json_loads : string -> option session)
    (lines : list string) (acc : list session) :
  read_lines json_loads lines acc
  = (acc ++ Spec.valid_records json_loads (Spec.before_malformed json_loads lines),
     bool_decide (Exists (Spec.malformed json_loads) lines)).
Proof.
  revert acc. induction lines as [|line rest IH]; intros acc.
  - cbn. by rewrite app_nil_r.
  - cbn [read_lines Spec.before_malformed].
    destruct (blank line) eqn:Hb.
    + rewrite IH. rewrite decide_False by (intros [? _]; congruence).
      unfold Spec.valid_records. rewrite filter_cons, decide_False by congruence.
      f_equal. apply bool_decide_ext. rewrite Exists_cons.
      split; [tauto | intros [[? _]|?]; [congruence | done]].
    + destruct (json_loads line) as [s|] eqn:Hl.
      * rewrite IH. rewrite decide_False by (intros [_ ?]; congruence).
        unfold Spec.valid_records. rewrite filter_cons, decide_True by done.
        cbn [omap list_omap]. rewrite Hl. cbn. rewrite <- app_assoc.
        f_equal. apply bool_decide_ext. rewrite Exists_cons.
        split; [tauto | intros [[_ ?]|?]; [congruence | done]].
      * rewrite decide_True by done. cbn. rewrite app_nil_r.
        f_equal. symmetry. apply bool_decide_eq_true. by left.
Qed.

Lemma before_malformed_all (json_loads : string -> option session)
    (lines : list string) :
  ~ Exists (Spec.malformed json_loads) lines ->
  Spec.before_malformed json_loads lines = lines.
Proof.
  induction lines as [|line rest IH]; [done |].
  rewrite Exists_cons. intros Hn. cbn.
  rewrite decide_False by tauto. f_equal. apply IH. tauto.
Qed.

(** C1, as stated, does not hold: a malformed line between two valid lines
    makes [analyze_experience] lose the record after it, and [basic_stats]
    lose every record. *)
Lemma load_sessions_counterexample :
  let lines := [Json.line "{'action': 'execute'}"; Json.line "not json";
                Json.line "{'action': 'complete'}"] in
  let fs := fun _ : string => Some lines in
  Spec.valid_records Json.loads lines = [rec "execute"; rec "complete"]
  /\ AnalyzeExperience.sessions
       (AnalyzeExperience.init fs Json.loads "sessions.jsonl").1
     = [rec "execute"]
  /\ (BasicStats.load_sessions fs Json.loads "sessions.jsonl").1 = []
  /\ AnalyzeExperience.sessions
       (AnalyzeExperience.init fs Json.loads "sessions.jsonl").1
     <> Spec.valid_records Json.loads lines
  /\ (BasicStats.load_sessions fs Json.loads "sessions.jsonl").1
     <> Spec.valid_records Json.loads lines.
Proof. by vm_compute. Qed.

(** C1, amended: a line that fails to parse is not skipped; it ends the
    loading, with one diagnostic on the error channel and no fatal error.
    [analyze_experience] keeps the records of the lines before the first
    malformed line, and [basic_stats] returns the empty sequence; the lines
    after it are not read.  A file without a malformed line gives the
    records of all its non-blank lines, in file order, and no diagnostic. *)
Theorem load_sessions_stops_at_malformed
    (fs : string -> option (list string))
    (json_loads : string -> option session)
    (file : string) (lines : list string) :
  fs file = Some lines ->
  let kept := Spec.valid_records json_loads
                (Spec.before_malformed json_loads lines) in
  (Exists (Spec.malformed json_loads) lines ->
   AnalyzeExperience.init fs json_loads file
   = ({| AnalyzeExperience.sessions_file := file;
         AnalyzeExperience.sessions := kept |},
      [AnalyzeExperience.Warning_malformed_json file])
   /\ BasicStats.load_sessions fs json_loads file
      = ([], [BasicStats.Error_malformed_json file]))
  /\ (~ Exists (Spec.malformed json_loads) lines ->
      AnalyzeExperience.init fs json_loads file
      = ({| AnalyzeExperience.sessions_file := file;
            AnalyzeExperience.sessions := Spec.valid_records json_loads lines |},
         [])
      /\ BasicStats.load_sessions fs json_loads file
         = (Spec.valid_records json_loads lines, [])).
Proof.
  intros Hfs kept. subst kept.
  unfold AnalyzeExperience.init, AnalyzeExperience.load_sessions,
    BasicStats.load_sessions.
  cbn [AnalyzeExperience.sessions_file AnalyzeExperience.sessions].
  rewrite Hfs, read_lines_spec. cbn [app].
  split; intros Hm.
  - by rewrite bool_decide_eq_true_2.
  - rewrite bool_decide_eq_false_2 by done.
    by rewrite before_malformed_all.
Qed.

(** The amended C1 on a file whose second line is cut short. *)
Lemma load_sessions_stops_at_malformed_witness :
  let lines := [Json.line "{'action': 'execute'}"; Json.line "{'action': ";
                Json.line "{'action': 'complete'}"] in
  let fs := fun _ : string => Some lines in
  AnalyzeExperience.init fs Json.loads "sessions.jsonl"
  = ({| AnalyzeExperience.sessions_file := "sessions.jsonl";
        AnalyzeExperience.sessions := [rec "execute"] |},
     [AnalyzeExperience.Warning_malformed_json "sessions.jsonl"])
  /\ BasicStats.load_sessions fs Json.loads "sessions.jsonl"
     = ([], [BasicStats.Error_malformed_json "sessions.jsonl"]).
Proof.
  intros lines fs.
  apply (load_sessions_stops_at_malformed fs Json.loads "sessions.jsonl" lines).
  - reflexivity.
  - apply Exists_cons_tl, Exists_cons_hd. split; reflexivity.
Defined.

(** ** Reports without history *)

(** C4, as stated, does not hold for [analyze_experience]: with the log
    file missing, [analyze_all] returns a mapping with the keys [status],
    [message] and [total_sessions] only; it has no summary and no group
    mapping, and its keys are not those of a report on a non-empty log. *)
Lemma no_history_report_counterexample :
  let self := (AnalyzeExperience.init (fun _ => None) Json.loads "sessions.jsonl").1 in
  let report := AnalyzeExperience.analyze_all Py.sqrt_micro self in
  AnalyzeExperience.sessions self = []
  /\ ~ Spec.zeroed_report report
  /\ AnalyzeExperience.keys report = ["status"; "message"; "total_sessions"]
  /\ AnalyzeExperience.keys report
     <> AnalyzeExperience.keys
          (AnalyzeExperience.analyze_all Py.sqrt_micro (Spec.analyzer [rec "execute"])).
Proof.
  split_and!.
  - reflexivity.
  - intros [(s & Hs & _) _]. discriminate Hs.
  - reflexivity.
  - by vm_compute.
Qed.

(** C4, amended: a missing log file is not an error; both loaders return
    the empty sequence and print nothing.  When there is no record,
    [basic_stats] prints the fixed report with status ["no_history"], every
    summary field zero and both group mappings empty, under the sections of
    a report on a non-empty log; [analyze_experience] returns the status
    ["no_history"], a message and [total_sessions = 0], and no other key. *)
Theorem no_history_reports
    (fs : string -> option (list string))
    (json_loads : string -> option session)
    (sqrt : Q -> Q) (file : string) :
  (fs file = None ->
   AnalyzeExperience.init fs json_loads file
   = ({| AnalyzeExperience.sessions_file := file;
         AnalyzeExperience.sessions := [] |}, [])
   /\ BasicStats.load_sessions fs json_loads file = ([], []))
  /\ ((BasicStats.load_sessions fs json_loads file).1 = [] ->
      (BasicStats.main sqrt fs json_loads file).1
      = {| BasicStats.status := "no_history";
           BasicStats.message := Some "No session history found";
           BasicStats.summary_of :=
             {| BasicStats.total_sessions := 0;
                BasicStats.total_executions := 0;
                BasicStats.completed := 0;
                BasicStats.failed := 0;
                BasicStats.success_rate := 0%Q;
                BasicStats.total_cost_usd := 0%Q;
                BasicStats.avg_cost_per_agent := 0%Q |};
           BasicStats.agent_types := [];
           BasicStats.cost_patterns := [] |})
  /\ ((AnalyzeExperience.init fs json_loads file).1.(AnalyzeExperience.sessions) = [] ->
      AnalyzeExperience.analyze_all sqrt (AnalyzeExperience.init fs json_loads file).1
      = {| AnalyzeExperience.status := "no_history";
           AnalyzeExperience.message := Some "No session history found";
           AnalyzeExperience.total_sessions := Some 0;
           AnalyzeExperience.summary_of := None;
           AnalyzeExperience.agent_types := None;
           AnalyzeExperience.cost_patterns := None;
           AnalyzeExperience.success_metrics_of := None;
           AnalyzeExperience.tool_patterns_of := None;
           AnalyzeExperience.resume_patterns_of := None;
           AnalyzeExperience.recommendations := None |}).
Proof.
  split_and!.
  - intros Hfs.
    unfold AnalyzeExperience.init, AnalyzeExperience.load_sessions,
      BasicStats.load_sessions.
    cbn [AnalyzeExperience.sessions_file]. by rewrite Hfs.
  - unfold BasicStats.main.
    destruct (BasicStats.load_sessions fs json_loads file) as [ss err].
    cbn [fst]. by intros ->.
  - intros Hs. unfold AnalyzeExperience.analyze_all. by rewrite Hs.
Qed.

(** The amended C4 on a missing file. *)
Lemma no_history_reports_witness :
  (BasicStats.main Py.sqrt_micro (fun _ => None) Json.loads "sessions.jsonl").1
  = {| BasicStats.status := "no_history";
       BasicStats.message := Some "No session history found";
       BasicStats.summary_of :=
         {| BasicStats.total_sessions := 0;
            BasicStats.total_executions := 0;
            BasicStats.completed := 0;
            BasicStats.failed := 0;
            BasicStats.success_rate := 0%Q;
            BasicStats.total_cost_usd := 0%Q;
            BasicStats.avg_cost_per_agent := 0%Q |};
       BasicStats.agent_types := [];
       BasicStats.cost_patterns := [] |}.
Proof.
  apply (no_history_reports (fun _ => None) Json.loads Py.sqrt_micro "sessions.jsonl").
  reflexivity.
Defined.

Example report_sections_stable :
  let doc ss := (BasicStats.main Py.sqrt_micro (fun _ => Some ss) Json.loads "s").1 in
  BasicStats.status (doc []) = "no_history"
  /\ BasicStats.status (doc [Json.line "{'action': 'execute'}"]) = "analyzed"
  /\ BasicStats.message (doc [Json.line "{'action': 'execute'}"]) = None.
Proof. by vm_compute. Qed.

(** ** Session outcomes *)

Lemma truthy_Some (o : option string) (sid : string) :
  truthy o = Some sid <-> o = Some sid /\ sid <> "".
Proof.
  destruct o as [[|c s]|]; cbn; split.
  - done.
  - intros [[= <-] ?]. done.
  - intros [= <-]. done.
  - by intros [? _].
  - done.
  - by intros [? _].
Qed.

(** The table after entering the outcome [o] for each record of [l]. *)
Lemma outcomes_fold_lookup (o : AnalyzeExperience.outcome) (l : list session)
    (m : gmap string AnalyzeExperience.outcome) (sid : string) :
  foldl (fun (m : gmap string AnalyzeExperience.outcome) s =>
           match truthy (session_id s) with
           | Some sid => <[sid := o]> m
           | None => m
           end) m l !! sid
  = if decide (Exists (fun s => truthy (session_id s) = Some sid) l)
    then Some o else m !! sid.
Proof.
  revert m. induction l as [|s l IH]; intros m.
  - cbn [foldl]. rewrite decide_False; [done | by intros ?%Exists_nil].
  - cbn [foldl]. rewrite IH.
    destruct (decide (Exists (fun s => truthy (session_id s) = Some sid) l))
      as [Hl|Hl].
    + rewrite decide_True; [done | by apply Exists_cons_tl].
    + destruct (truthy (session_id s)) as [sid'|] eqn:Hs.
      * destruct (decide (sid' = sid)) as [->|Hne].
        -- rewrite lookup_insert_eq.
           rewrite decide_True; [done | by apply Exists_cons_hd].
        -- rewrite lookup_insert_ne by done.
           rewrite decide_False; [done |].
           rewrite Exists_cons. intros [?|?]; [congruence | done].
      * rewrite decide_False; [done |].
        rewrite Exists_cons. intros [?|?]; [congruence | done].
Qed.

Lemma Exists_filter_action (act sid : string) (sessions : list session) :
  Exists (fun s => truthy (session_id s) = Some sid)
         (filter (fun s => action s = Some act) sessions)
  <-> Spec.has_record act sid sessions.
Proof.
  unfold Spec.has_record. rewrite !Exists_exists.
  split.
  - intros (s & Hin & Hs). apply list_elem_of_filter in Hin as [? ?]. eauto.
  - intros (s & Hin & Ha & Hs). exists s. split; [| done].
    apply list_elem_of_filter. done.
Qed.

Lemma session_outcomes_lookup (sessions : list session) (sid : string) :
  AnalyzeExperience.session_outcomes (Spec.analyzer sessions) !! sid
  = if decide (Spec.has_record "failed" sid sessions)
    then Some AnalyzeExperience.Failed
    else if decide (Spec.has_record "complete" sid sessions)
         then Some AnalyzeExperience.Success
         else None.
Proof.
  unfold AnalyzeExperience.session_outcomes.
  cbn [AnalyzeExperience.sessions Spec.analyzer].
  rewrite !outcomes_fold_lookup, lookup_empty.
  destruct (decide (Spec.has_record "failed" sid sessions)) as [Hf|Hf].
  - rewrite decide_True; [done | by apply Exists_filter_action].
  - rewrite decide_False by (by rewrite Exists_filter_action).
    destruct (decide (Spec.has_record "complete" sid sessions)) as [Hc|Hc].
    + rewrite decide_True; [done | by apply Exists_filter_action].
    + rewrite decide_False; [done | by rewrite Exists_filter_action].
Qed.

(** The terminal records of a session, as outcomes in file order. *)
Lemma elem_of_terminal_outcomes (o : AnalyzeExperience.outcome) (sid : string)
    (sessions : list session) :
  o ∈ omap Spec.terminal_outcome
        (filter (fun s => session_id s = Some sid) sessions)
  <-> exists s, s ∈ sessions /\ session_id s = Some sid
                /\ Spec.terminal_outcome s = Some o.
Proof.
  rewrite list_elem_of_omap. split.
  - intros (s & Hin & Ho). apply list_elem_of_filter in Hin as [? ?]. eauto.
  - intros (s & Hin & Hs & Ho). exists s. split; [| done].
    by apply list_elem_of_filter.
Qed.

Lemma terminal_outcome_Failed (s : session) :
  Spec.terminal_outcome s = Some AnalyzeExperience.Failed
  <-> action s = Some "failed".
Proof.
  unfold Spec.terminal_outcome. repeat case_decide; split; congruence.
Qed.

Lemma terminal_outcome_Success (s : session) :
  Spec.terminal_outcome s = Some AnalyzeExperience.Success
  <-> action s = Some "complete".
Proof.
  unfold Spec.terminal_outcome. repeat case_decide; split; congruence.
Qed.

Lemma has_record_failed (sid : string) (sessions : list session) :
  sid <> "" ->
  Spec.has_record "failed" sid sessions
  <-> AnalyzeExperience.Failed
        ∈ omap Spec.terminal_outcome
            (filter (fun s => session_id s = Some sid) sessions).
Proof.
  intros Hsid. unfold Spec.has_record.
  rewrite Exists_exists, elem_of_terminal_outcomes.
  split; intros (s & Hin & H1 & H2); exists s; split; try done.
  - apply truthy_Some in H2 as [? _]. by rewrite terminal_outcome_Failed.
  - rewrite truthy_Some. by apply terminal_outcome_Failed in H2.
Qed.

Lemma has_record_complete (sid : string) (sessions : list session) :
  sid <> "" ->
  Spec.has_record "complete" sid sessions
  <-> AnalyzeExperience.Success
        ∈ omap Spec.terminal_outcome
            (filter (fun s => session_id s = Some sid) sessions).
Proof.
  intros Hsid. unfold Spec.has_record.
  rewrite Exists_exists, elem_of_terminal_outcomes.
  split; intros (s & Hin & H1 & H2); exists s; split; try done.
  - apply truthy_Some in H2 as [? _]. by rewrite terminal_outcome_Success.
  - rewrite truthy_Some. by apply terminal_outcome_Success in H2.
Qed.

Lemma last_without_failed (l : list AnalyzeExperience.outcome) :
  AnalyzeExperience.Failed ∉ l ->
  last l = if decide (AnalyzeExperience.Success ∈ l)
           then Some AnalyzeExperience.Success else None.
Proof.
  induction l as [|x l IH] using rev_ind; intros Hf.
  - cbn. rewrite decide_False; [done | apply not_elem_of_nil].
  - rewrite last_snoc.
    destruct x.
    + rewrite decide_True; [done |]. apply elem_of_app. right.
      by apply list_elem_of_singleton.
    + exfalso. apply Hf, elem_of_app. right. by apply list_elem_of_singleton.
Qed.

(** C3, as stated, does not hold: for a session that failed first and
    completed later, the last terminal record is the completion, and the
    success analysis records the session as failed. *)
Lemma last_terminal_counterexample :
  let sessions := [rec_id "failed" "s1"; rec_id "complete" "s1"] in
  let outcomes := AnalyzeExperience.session_outcomes (Spec.analyzer sessions) in
  Spec.last_terminal "s1" sessions = Some AnalyzeExperience.Success
  /\ outcomes !! "s1" = Some AnalyzeExperience.Failed
  /\ outcomes !! "s1" <> Spec.last_terminal "s1" sessions.
Proof. by vm_compute. Qed.

(** C3, amended: the outcome of a session id is [failed] when the id has at
    least one [failed] record, and otherwise [success] when it has at least
    one [complete] record, whatever the file order; records without an id,
    or with the empty id, enter no outcome.  So, for a non-empty id, the
    outcome is the action of the last terminal record whenever that record
    is [failed] or the id has no [failed] record; a [failed] record
    overrides a later [complete] one. *)
Theorem failed_outcome_overrides (sessions : list session) (sid : string) :
  let outcomes := AnalyzeExperience.session_outcomes (Spec.analyzer sessions) in
  outcomes !! sid
  = (if decide (Spec.has_record "failed" sid sessions)
     then Some AnalyzeExperience.Failed
     else if decide (Spec.has_record "complete" sid sessions)
          then Some AnalyzeExperience.Success
          else None)
  /\ (sid <> "" ->
      Spec.last_terminal sid sessions = Some AnalyzeExperience.Failed
      \/ ~ Spec.has_record "failed" sid sessions ->
      outcomes !! sid = Spec.last_terminal sid sessions).
Proof.
  intros outcomes. subst outcomes. split; [apply session_outcomes_lookup |].
  intros Hsid Hcases. rewrite session_outcomes_lookup.
  unfold Spec.last_terminal in *.
  destruct Hcases as [Hlast|Hnf].
  - rewrite decide_True; [done |].
    apply has_record_failed; [done |]. by apply last_Some_elem_of.
  - rewrite decide_False by done.
    rewrite last_without_failed by (by rewrite <- has_record_failed).
    destruct (decide (Spec.has_record "complete" sid sessions)) as [Hc|Hc].
    + rewrite decide_True; [done | by apply has_record_complete].
    + rewrite decide_False; [done | by rewrite <- has_record_complete].
Qed.

(** The amended C3 on a session that only completed. *)
Lemma failed_outcome_overrides_witness :
  let sessions := [rec_id "complete" "s1"; rec_id "failed" "s1";
                   rec_id "complete" "s2"] in
  AnalyzeExperience.session_outcomes (Spec.analyzer sessions) !! "s2"
  = Spec.last_terminal "s2" sessions.
Proof.
  intros sessions.
  apply (failed_outcome_overrides sessions "s2").
  - discriminate.
  - right. unfold Spec.has_record. rewrite Exists_exists.
    intros (s & Hin & Ha & Hs).
    repeat (apply elem_of_cons in Hin as [->|Hin]; [by vm_compute in Hs |]).
    by apply elem_of_nil in Hin.
Defined.

(** ** Resume patterns *)

Lemma resumes_fold_dom (l : list session) (m : gmap string nat) :
  dom (foldl (fun (m : gmap string nat) s =>
                match truthy (session_id s) with
                | Some sid => <[sid := S (default 0 (m !! sid))]> m
                | None => m
                end) m l)
  = list_to_set (omap (fun s => truthy (session_id s)) l) ∪ dom m.
Proof.
  revert m. induction l as [|s l IH]; intros m.
  - cbn [foldl omap list_omap]. by rewrite list_to_set_nil, (left_id_L ∅ (∪)).
  - cbn [foldl omap list_omap]. rewrite IH.
    destruct (truthy (session_id s)) as [sid|].
    + rewrite dom_insert_L, list_to_set_cons.
      rewrite (assoc_L (∪)). f_equal. apply (comm_L (∪)).
    + done.
Qed.

Lemma session_resumes_dom (sessions : list session) :
  dom (AnalyzeExperience.session_resumes (Spec.analyzer sessions))
  = list_to_set (Spec.resumed_ids sessions).
Proof.
  unfold AnalyzeExperience.session_resumes, Spec.resumed_ids.
  cbn [AnalyzeExperience.sessions Spec.analyzer].
  by rewrite resumes_fold_dom, dom_empty_L, (right_id_L ∅ (∪)).
Qed.

Lemma session_resumes_size (sessions : list session) :
  size (AnalyzeExperience.session_resumes (Spec.analyzer sessions))
  = Spec.resumed_sessions sessions.
Proof.
  unfold Spec.resumed_sessions.
  by rewrite <- session_resumes_dom, size_dom.
Qed.

Lemma session_resumes_empty (sessions : list session) :
  AnalyzeExperience.session_resumes (Spec.analyzer sessions) = ∅
  <-> Spec.resumed_ids sessions = [].
Proof.
  rewrite <- dom_empty_iff_L, session_resumes_dom.
  destruct (Spec.resumed_ids sessions) as [|sid ids].
  - by rewrite list_to_set_nil.
  - rewrite list_to_set_cons. split; [| done].
    intros He. assert (sid ∈ (∅ : gset string)) as Hin.
    { rewrite <- He. apply elem_of_union. left. by apply elem_of_singleton. }
    by apply elem_of_empty in Hin.
Qed.

(** C9, as stated, does not hold: a [resume] record whose [session_id] is
    the empty string carries a session id, and the aggregator treats it as
    if it had none: it returns the three zero fields and no distribution,
    so there is no 0-resumes bucket. *)
Lemma empty_session_id_counterexample :
  let sessions := [rec_id "resume" ""; rec "complete"] in
  let r := AnalyzeExperience.analyze_resumes (Spec.analyzer sessions) in
  Exists (fun s => action s = Some "resume" /\ is_Some (session_id s)) sessions
  /\ AnalyzeExperience.distribution r = None
  /\ ~ (exists d, AnalyzeExperience.distribution r = Some d
                  /\ AnalyzeExperience.zero_resumes d = (1 - 1)%Z).
Proof.
  split_and!.
  - apply Exists_cons_hd. split; [done | by eexists].
  - reflexivity.
  - intros (d & Hd & _). discriminate Hd.
Qed.

(** C9, amended: when at least one [resume] record carries a non-empty
    session id, the 0-resumes bucket is the count of [complete] records
    minus the number of distinct non-empty ids with a resume (an integer
    that may be negative), and [sessions_with_resumes] is that number of
    ids; when no [resume] record carries a non-empty id, the aggregator
    returns [total_resumes = 0], [sessions_with_resumes = 0] and
    [avg_resumes_per_session = 0], without the maximum and the
    distribution. *)
Theorem resume_zero_bucket (sessions : list session) :
  let r := AnalyzeExperience.analyze_resumes (Spec.analyzer sessions) in
  let completed :=
    length (filter (fun s => action s = Some "complete") sessions) in
  (Spec.resumed_ids sessions <> [] ->
   AnalyzeExperience.sessions_with_resumes r = Spec.resumed_sessions sessions
   /\ is_Some (AnalyzeExperience.max_resumes r)
   /\ exists d, AnalyzeExperience.distribution r = Some d
                /\ AnalyzeExperience.zero_resumes d
                   = (Z.of_nat completed
                      - Z.of_nat (Spec.resumed_sessions sessions))%Z)
  /\ (Spec.resumed_ids sessions = [] ->
      r = {| AnalyzeExperience.total_resumes := 0;
             AnalyzeExperience.sessions_with_resumes := 0;
             AnalyzeExperience.avg_resumes_per_session := 0%Q;
             AnalyzeExperience.max_resumes := None;
             AnalyzeExperience.distribution := None |}).
Proof.
  intros r completed. subst r completed.
  unfold AnalyzeExperience.analyze_resumes.
  split; intros Hids.
  - rewrite decide_False by (by rewrite session_resumes_empty).
    cbn [AnalyzeExperience.sessions_with_resumes AnalyzeExperience.max_resumes
         AnalyzeExperience.distribution].
    rewrite session_resumes_size. split_and!; [done | by eexists |].
    eexists. split; [reflexivity |]. done.
  - rewrite decide_True; [done | by apply session_resumes_empty].
Qed.

(** The amended C9 on two resumed sessions and no completion. *)
Lemma resume_zero_bucket_witness :
  let sessions := [rec_id "resume" "a"; rec_id "resume" "a"; rec_id "resume" "b"] in
  let r := AnalyzeExperience.analyze_resumes (Spec.analyzer sessions) in
  AnalyzeExperience.sessions_with_resumes r = Spec.resumed_sessions sessions
  /\ is_Some (AnalyzeExperience.max_resumes r)
  /\ exists d, AnalyzeExperience.distribution r = Some d
               /\ AnalyzeExperience.zero_resumes d
                  = (Z.of_nat 0 - Z.of_nat (Spec.resumed_sessions sessions))%Z.
Proof.
  intros sessions r.
  apply (resume_zero_bucket sessions). discriminate.
Defined.

Example zero_bucket_negative :
  AnalyzeExperience.analyze_resumes
    (Spec.analyzer [rec_id "resume" "a"; rec_id "resume" "a"; rec_id "resume" "b"])
  = {| AnalyzeExperience.total_resumes := 3;
       AnalyzeExperience.sessions_with_resumes := 2;
       AnalyzeExperience.avg_resumes_per_session := 1.5%Q;
       AnalyzeExperience.max_resumes := Some 2;
       AnalyzeExperience.distribution :=
         Some {| AnalyzeExperience.zero_resumes := (-2)%Z;
                 AnalyzeExperience.one_resume := 1;
                 AnalyzeExperience.two_plus_resumes := 1 |} |}.
Proof. by vm_compute. Qed.

(** ** Grouping tables and result mappings *)

Section Collect.
Context {A B : Type}.
Variable f : list (string * B) -> string * A -> list (string * B).
Variable sel : A -> option B.
Hypothesis f_step : forall r k x,
  f r (k, x) = match sel x with
               | Some y => dict_set k y r
               | None => r
               end.

(** A result mapping filled from a table with distinct keys holds, under
    each key, what the table's entry selects. *)
Lemma dict_collect_lookup (d : list (string * A)) (r : list (string * B))
    (k : string) :
  NoDup d.*1 ->
  dict_get k (foldl f r d)
  = match dict_get k d ≫= sel with
    | Some y => Some y
    | None => dict_get k r
    end.
Proof.
  revert r. induction d as [|[k' x] d IH]; intros r Hnd; [done |].
  cbn [fmap list_fmap fst] in Hnd. apply NoDup_cons in Hnd as [Hk' Hnd].
  cbn [foldl dict_get]. rewrite IH by done. rewrite f_step.
  destruct (decide (k = k')) as [->|Hne].
  - assert (dict_get k' d = None) as -> by (by apply dict_get_None).
    cbn. destruct (sel x); [by rewrite dict_get_set_eq | done].
  - destruct (dict_get k d ≫= sel); [done |].
    destruct (sel x); [by rewrite dict_get_set_ne | done].
Qed.
End Collect.

Lemma costs_by_action_NoDup (sessions : list session)
    (d : list (string * list Q)) :
  NoDup d.*1 ->
  NoDup (foldl AnalyzeExperience.costs_by_action_step d sessions).*1.
Proof.
  revert d. induction sessions as [|s ss IH]; intros d Hd; [done |].
  cbn [foldl]. apply IH. unfold AnalyzeExperience.costs_by_action_step.
  destruct (cost_usd s); [by apply dict_set_NoDup | done].
Qed.

Lemma costs_of_action_cons (a : string) (s : session) (ss : list session) :
  Spec.costs_of_action a (s :: ss)
  = match cost_usd s with
    | Some c => if decide (default "unknown" (action s) = a)
                then c :: Spec.costs_of_action a ss
                else Spec.costs_of_action a ss
    | None => Spec.costs_of_action a ss
    end.
Proof.
  unfold Spec.costs_of_action. rewrite filter_cons.
  destruct (decide (default "unknown" (action s) = a)) as [Ha|Ha].
  - cbn [omap list_omap]. by destruct (cost_usd s).
  - by destruct (cost_usd s).
Qed.

(** The grouping table of [analyze_costs] holds, under each action key, the
    costs recorded under that key, in file order. *)
Lemma costs_by_action_lookup (sessions : list session)
    (d : list (string * list Q)) (a : string) :
  dict_get a (foldl AnalyzeExperience.costs_by_action_step d sessions)
  = match dict_get a d with
    | Some l => Some (l ++ Spec.costs_of_action a sessions)
    | None => if nonempty (Spec.costs_of_action a sessions)
              then Some (Spec.costs_of_action a sessions) else None
    end.
Proof.
  revert d. induction sessions as [|s ss IH]; intros d.
  - cbn. destruct (dict_get a d); [by rewrite app_nil_r | done].
  - cbn [foldl]. rewrite IH, costs_of_action_cons.
    unfold AnalyzeExperience.costs_by_action_step.
    destruct (cost_usd s) as [c|]; [| done].
    rewrite dict_get_set.
    destruct (decide (default "unknown" (action s) = a)) as [->|Hne]; [| done].
    destruct (dict_get _ d) as [l|]; cbn.
    + by rewrite <- app_assoc.
    + done.
Qed.

Lemma analyze_costs_stats_lookup (sqrt : Q -> Q) (sessions : list session)
    (a : string) (st : cost_stats) :
  dict_get a (AnalyzeExperience.analyze_costs sqrt (Spec.analyzer sessions))
  = Some (ActionStats st) ->
  Spec.costs_of_action a sessions <> []
  /\ st = AnalyzeExperience.action_entry sqrt (Spec.costs_of_action a sessions).
Proof.
  unfold AnalyzeExperience.analyze_costs.
  cbn [AnalyzeExperience.sessions Spec.analyzer].
  set (cba := foldl AnalyzeExperience.costs_by_action_step [] sessions).
  set (result := foldl _ [] cba).
  assert (Hres : dict_get a result = Some (ActionStats st) ->
                 Spec.costs_of_action a sessions <> []
                 /\ st = AnalyzeExperience.action_entry sqrt
                           (Spec.costs_of_action a sessions)).
  { subst result.
    rewrite (dict_collect_lookup _
               (fun costs => if nonempty costs
                             then Some (ActionStats (AnalyzeExperience.action_entry sqrt costs))
                             else None)).
    - subst cba. rewrite costs_by_action_lookup. cbn [dict_get].
      destruct (Spec.costs_of_action a sessions) as [|c cs]; [done |].
      cbn. intros [= <-]. done.
    - intros r k x. by destruct (nonempty x).
    - apply costs_by_action_NoDup. constructor. }
  destruct (nonempty _); [| done].
  rewrite dict_get_set. case_decide; [done | apply Hres].
Qed.

Lemma type_data_NoDup (sessions : list session)
    (d : list (string * AnalyzeExperience.type_entry)) :
  NoDup d.*1 ->
  NoDup (foldl AnalyzeExperience.type_data_step d sessions).*1.
Proof.
  revert d. induction sessions as [|s ss IH]; intros d Hd; [done |].
  cbn [foldl]. apply IH. unfold AnalyzeExperience.type_data_step.
  repeat case_decide; try done; by apply dict_set_NoDup.
Qed.

Lemma costs_of_agent_type_cons (t : string) (s : session) (ss : list session) :
  Spec.costs_of_agent_type t (s :: ss)
  = if decide (action s = Some "execute" /\ default "unknown" (agent_type s) = t)
    then match cost_usd s with
         | Some c => c :: Spec.costs_of_agent_type t ss
         | None => Spec.costs_of_agent_type t ss
         end
    else Spec.costs_of_agent_type t ss.
Proof.
  unfold Spec.costs_of_agent_type. rewrite filter_cons.
  case_decide; [| done]. cbn [omap list_omap]. by destruct (cost_usd s).
Qed.

(** One record moves the costs of an agent type from the table to come to
    the table so far. *)
Lemma type_data_step_costs (t : string) (s : session) (ss : list session)
    (d : list (string * AnalyzeExperience.type_entry)) :
  AnalyzeExperience.td_costs
    (default AnalyzeExperience.type_entry_new
       (dict_get t (AnalyzeExperience.type_data_step d s)))
  ++ Spec.costs_of_agent_type t ss
  = AnalyzeExperience.td_costs
      (default AnalyzeExperience.type_entry_new (dict_get t d))
    ++ Spec.costs_of_agent_type t (s :: ss).
Proof.
  rewrite costs_of_agent_type_cons. unfold AnalyzeExperience.type_data_step.
  destruct (decide (action s = Some "execute")) as [He|He].
  - rewrite dict_get_set.
    destruct (decide (default "unknown" (agent_type s) = t)) as [->|Hne].
    + rewrite decide_True by done. cbn.
      destruct (cost_usd s); [by rewrite <- app_assoc | done].
    + rewrite decide_False by tauto. done.
  - rewrite (decide_False (P := _ /\ _)) by tauto.
    repeat case_decide; try done;
      rewrite dict_get_set; case_decide; by subst.
Qed.

Lemma type_data_costs (sessions : list session)
    (d : list (string * AnalyzeExperience.type_entry)) (t : string)
    (data : AnalyzeExperience.type_entry) :
  dict_get t (foldl AnalyzeExperience.type_data_step d sessions) = Some data ->
  AnalyzeExperience.td_costs data
  = AnalyzeExperience.td_costs
      (default AnalyzeExperience.type_entry_new (dict_get t d))
    ++ Spec.costs_of_agent_type t sessions.
Proof.
  revert d. induction sessions as [|s ss IH]; intros d Hd.
  - cbn in Hd. rewrite Hd. cbn. by rewrite app_nil_r.
  - cbn [foldl] in Hd. rewrite (IH _ Hd). apply type_data_step_costs.
Qed.

Lemma analyze_agent_types_lookup (sessions : list session) (t : string)
    (st : AnalyzeExperience.agent_type_stats) :
  dict_get t (AnalyzeExperience.analyze_agent_types (Spec.analyzer sessions))
  = Some st ->
  exists data,
    st = AnalyzeExperience.agent_type_entry data
    /\ AnalyzeExperience.td_costs data = Spec.costs_of_agent_type t sessions.
Proof.
  unfold AnalyzeExperience.analyze_agent_types.
  cbn [AnalyzeExperience.sessions Spec.analyzer].
  rewrite (dict_collect_lookup _
             (fun data => if decide (0 < AnalyzeExperience.td_count data)
                          then Some (AnalyzeExperience.agent_type_entry data)
                          else None)).
  - destruct (dict_get t (foldl _ [] sessions)) as [data|] eqn:Hd; [| done].
    cbn. case_decide; [| done]. intros [= <-]. exists data. split; [done |].
    by rewrite (type_data_costs _ _ _ _ Hd).
  - intros r k x. by case_decide.
  - apply type_data_NoDup. constructor.
Qed.

(** ** Cost categories *)

Lemma costed_executions_all_costs (sessions : list session) :
  map (fun s => default 0%Q (cost_usd s))
      (filter (fun s => is_Some (cost_usd s) /\ action s = Some "execute") sessions)
  = Spec.costed_executions sessions.
Proof.
  unfold Spec.costed_executions.
  induction sessions as [|s ss IH]; [done |].
  rewrite !filter_cons.
  destruct (decide (action s = Some "execute")) as [Ha|Ha].
  - cbn [omap list_omap]. destruct (cost_usd s) as [c|] eqn:Hc.
    + rewrite decide_True by (split; [by eexists | done]).
      cbn. rewrite Hc. cbn. by f_equal.
    + rewrite decide_False by (by intros [[? ?] _]). done.
  - rewrite decide_False by tauto. done.
Qed.

(** Every cost falls in exactly one category. *)
Lemma category_trichotomy (c : Q) :
  (Spec.is_simple c /\ ~ Spec.is_medium c /\ ~ Spec.is_complex c)
  \/ (~ Spec.is_simple c /\ Spec.is_medium c /\ ~ Spec.is_complex c)
  \/ (~ Spec.is_simple c /\ ~ Spec.is_medium c /\ Spec.is_complex c).
Proof.
  unfold Spec.is_simple, Spec.is_medium, Spec.is_complex, Qle, Qlt.
  destruct c as [n d]. cbn. lia.
Qed.

Lemma category_counts (costs : list Q) :
  length (filter Spec.is_simple costs) + length (filter Spec.is_medium costs)
  + length (filter Spec.is_complex costs)
  = length costs.
Proof.
  induction costs as [|c costs IH]; [done |].
  rewrite !filter_cons.
  destruct (category_trichotomy c) as [(H1 & H2 & H3)|[(H1 & H2 & H3)|(H1 & H2 & H3)]].
  - rewrite decide_True, !decide_False by done. cbn. lia.
  - rewrite (decide_True (P := Spec.is_medium c)), !decide_False by done. cbn. lia.
  - rewrite (decide_True (P := Spec.is_complex c)), !decide_False by done. cbn. lia.
Qed.

(** Without the category block, the key ["categories"] holds at most the
    statistics of an action of that name. *)
Lemma analyze_costs_no_categories (sqrt : Q -> Q) (sessions : list session)
    (cats : categories) :
  Spec.costed_executions sessions = [] ->
  dict_get "categories"
    (AnalyzeExperience.analyze_costs sqrt (Spec.analyzer sessions))
  <> Some (Categories cats).
Proof.
  intros Hnone. unfold AnalyzeExperience.analyze_costs.
  cbn [AnalyzeExperience.sessions Spec.analyzer].
  rewrite costed_executions_all_costs, Hnone. cbn [nonempty].
  rewrite (dict_collect_lookup _
             (fun costs => if nonempty costs
                           then Some (ActionStats (AnalyzeExperience.action_entry sqrt costs))
                           else None)).
  - destruct (dict_get "categories" _) as [costs|]; cbn; [| done].
    by destruct (nonempty costs).
  - intros r k x. by destruct (nonempty x).
  - apply costs_by_action_NoDup. constructor.
Qed.

(** The key ["categories"] of the result: the block, built from the costed
    [execute] records, exactly when there is such a record. *)
Lemma analyze_costs_categories (sqrt : Q -> Q) (sessions : list session) :
  let costed := Spec.costed_executions sessions in
  match dict_get "categories"
          (AnalyzeExperience.analyze_costs sqrt (Spec.analyzer sessions)) with
  | Some (Categories cats) =>
      costed <> []
      /\ cats = {| simple := {| range := "$0.05-$0.15";
                                cat_count := length (filter Spec.is_simple costed) |};
                   medium := {| range := "$0.15-$0.40";
                                cat_count := length (filter Spec.is_medium costed) |};
                   complex := {| range := "$0.40+";
                                 cat_count := length (filter Spec.is_complex costed) |} |}
  | _ => costed = []
  end.
Proof.
  intros costed.
  destruct (decide (costed = [])) as [Hnone|Hsome].
  - pose proof (fun cats => analyze_costs_no_categories sqrt sessions cats Hnone) as Hno.
    destruct (dict_get "categories" _) as [[st|cats]|]; [done | | done].
    by destruct (Hno cats).
  - unfold AnalyzeExperience.analyze_costs.
    cbn [AnalyzeExperience.sessions Spec.analyzer].
    rewrite costed_executions_all_costs. fold costed.
    destruct costed as [|c costs] eqn:Hc; [done |].
    cbn [nonempty]. rewrite dict_get_set_eq. done.
Qed.

Lemma costed_executions_float_all_costs (sessions : list Float.session) :
  map (fun s => default (Float.Number 0) (Float.cost_usd s))
      (filter (fun s => is_Some (Float.cost_usd s) /\ Float.action s = Some "execute")
              sessions)
  = Spec.costed_executions_float sessions.
Proof.
  unfold Spec.costed_executions_float.
  induction sessions as [|s ss IH]; [done |].
  rewrite !filter_cons.
  destruct (decide (Float.action s = Some "execute")) as [Ha|Ha].
  - cbn [omap list_omap]. destruct (Float.cost_usd s) as [c|] eqn:Hc.
    + rewrite decide_True by (split; [by eexists | done]).
      cbn. rewrite Hc. cbn. by f_equal.
    + rewrite decide_False by (by intros [[? ?] _]). done.
  - rewrite decide_False by tauto. done.
Qed.

(** Two tests that the same elements pass select equally many. *)
Lemma filter_length_iff {A} (P R : A -> Prop)
    `{!forall x, Decision (P x)} `{!forall x, Decision (R x)} (l : list A) :
  (forall x, P x <-> R x) ->
  length (filter P l) = length (filter R l).
Proof.
  intros HPR. induction l as [|x l IH]; [done |].
  rewrite !filter_cons.
  destruct (decide (P x)) as [HP|HP], (decide (R x)) as [HR|HR];
    cbn [length]; [by rewrite IH | by apply HPR in HP | by apply HPR in HR | done].
Qed.

(** The three comparisons of the category block, float by float. *)
Lemma float_categories (c : Float.float) :
  (Float.le c (Float.Number 0.15) <-> Spec.in_simple c)
  /\ (Float.lt (Float.Number 0.15) c /\ Float.le c (Float.Number 0.40)
      <-> Spec.in_medium c)
  /\ (Float.lt (Float.Number 0.40) c <-> Spec.in_complex c).
Proof.
  destruct c; cbn; unfold Spec.is_simple, Spec.is_medium, Spec.is_complex; tauto.
Qed.

(** Every float but NaN falls in exactly one category, and NaN in none. *)
Lemma float_trichotomy (c : Float.float) :
  if decide (Spec.is_nan c)
  then ~ Spec.in_simple c /\ ~ Spec.in_medium c /\ ~ Spec.in_complex c
  else (Spec.in_simple c /\ ~ Spec.in_medium c /\ ~ Spec.in_complex c)
       \/ (~ Spec.in_simple c /\ Spec.in_medium c /\ ~ Spec.in_complex c)
       \/ (~ Spec.in_simple c /\ ~ Spec.in_medium c /\ Spec.in_complex c).
Proof.
  destruct (decide (Spec.is_nan c)) as [->|Hn]; [cbn; tauto |].
  destruct c as [q| | |]; cbn; [apply category_trichotomy | tauto | tauto |].
  by destruct Hn.
Qed.

Lemma float_category_counts (costs : list Float.float) :
  length (filter Spec.in_simple costs) + length (filter Spec.in_medium costs)
  + length (filter Spec.in_complex costs) + length (filter Spec.is_nan costs)
  = length costs.
Proof.
  induction costs as [|c costs IH]; [done |].
  rewrite !filter_cons.
  pose proof (float_trichotomy c) as Hc.
  destruct (decide (Spec.is_nan c)) as [Hn|Hn].
  - destruct Hc as (H1 & H2 & H3).
    rewrite !decide_False by done. cbn [length]. lia.
  - destruct Hc as [(H1 & H2 & H3)|[(H1 & H2 & H3)|(H1 & H2 & H3)]].
    + rewrite (decide_True (P := Spec.in_simple c)), !decide_False by done.
      cbn [length]. lia.
    + rewrite (decide_True (P := Spec.in_medium c)), !decide_False by done.
      cbn [length]. lia.
    + rewrite (decide_True (P := Spec.in_complex c)), !decide_False by done.
      cbn [length]. lia.
Qed.

Lemma costed_executions_with_number_cost (sessions : list session) :
  Spec.costed_executions_float (Spec.with_number_cost <$> sessions)
  = Float.Number <$> Spec.costed_executions sessions.
Proof.
  unfold Spec.costed_executions_float, Spec.costed_executions.
  induction sessions as [|s ss IH]; [done |].
  rewrite fmap_cons, !filter_cons.
  change (Float.action (Spec.with_number_cost s)) with (action s).
  destruct (decide (action s = Some "execute")); [| done].
  cbn [omap list_omap].
  change (Float.cost_usd (Spec.with_number_cost s)) with (Float.Number <$> cost_usd s).
  destruct (cost_usd s); cbn; by rewrite IH.
Qed.

(** A test on floats selects, among numbers, what its restriction to
    numbers selects. *)
Lemma filter_length_numbers (P : Float.float -> Prop) (R : Q -> Prop)
    `{!forall c, Decision (P c)} `{!forall q, Decision (R q)} (costs : list Q) :
  (forall q, P (Float.Number q) <-> R q) ->
  length (filter P (Float.Number <$> costs)) = length (filter R costs).
Proof.
  intros HPR. induction costs as [|q costs IH]; [done |].
  rewrite fmap_cons, !filter_cons.
  destruct (decide (P (Float.Number q))) as [HP|HP], (decide (R q)) as [HR|HR];
    cbn [length]; [by rewrite IH | by apply HPR in HP | by apply HPR in HR | done].
Qed.

(** C6 as stated fails on the record that [json.loads] returns for the line
    [{"action": "execute", "cost_usd": NaN}]: there is one [execute] record
    carrying [cost_usd], the category block is present, and its three
    counts are 0, 0 and 0. *)
Lemma nan_cost_counterexample :
  let sessions := [ {| Float.action := Some "execute"; Float.session_id := None;
                       Float.agent_type := None;
                       Float.cost_usd := Some Float.NaN |} ] in
  exists cats,
    Float.cost_categories sessions = Some cats
    /\ length (Spec.costed_executions_float sessions) = 1
    /\ cat_count (simple cats) = 0
    /\ cat_count (medium cats) = 0
    /\ cat_count (complex cats) = 0
    /\ cat_count (simple cats) + cat_count (medium cats) + cat_count (complex cats)
       <> length (Spec.costed_executions_float sessions).
Proof.
  intros sessions. eexists. split; [reflexivity |].
  vm_compute. split_and!; try reflexivity. lia.
Qed.

(** A single execution whose recorded cost is [Infinity] is complex. *)
Example cost_categories_infinity :
  Float.cost_categories
    [ {| Float.action := Some "execute"; Float.session_id := None;
         Float.agent_type := None; Float.cost_usd := Some Float.Infinity |} ]
  = Some {| simple := {| range := "$0.05-$0.15"; cat_count := 0 |};
            medium := {| range := "$0.15-$0.40"; cat_count := 0 |};
            complex := {| range := "$0.40+"; cat_count := 1 |} |}.
Proof. reflexivity. Qed.

(** C6, amended: whenever the cost analysis returns a result, the counts
    of its three cost categories are the numbers
    of costed [execute] records with cost at most 0.15, above 0.15 and at
    most 0.40, and above 0.40; every cost that is not NaN falls in exactly
    one category and a NaN cost in none, so the counts add up to the
    number of costed [execute] records whose cost is not NaN; the category
    block is present exactly when there is a costed [execute] record, NaN
    included.  On records whose costs are finite numbers, this is the block
    that [analyze_costs] stores under ["categories"], in both tools. *)
Theorem cost_categories_partition (sessions : list Float.session) :
  let costed := Spec.costed_executions_float sessions in
  (forall c : Float.float,
     ~ Spec.is_nan c ->
     (Spec.in_simple c /\ ~ Spec.in_medium c /\ ~ Spec.in_complex c)
     \/ (~ Spec.in_simple c /\ Spec.in_medium c /\ ~ Spec.in_complex c)
     \/ (~ Spec.in_simple c /\ ~ Spec.in_medium c /\ Spec.in_complex c))
  /\ (~ Spec.in_simple Float.NaN /\ ~ Spec.in_medium Float.NaN
      /\ ~ Spec.in_complex Float.NaN)
  /\ match Float.cost_categories sessions with
     | Some cats =>
         costed <> []
         /\ cat_count (simple cats) = length (filter Spec.in_simple costed)
         /\ cat_count (medium cats) = length (filter Spec.in_medium costed)
         /\ cat_count (complex cats) = length (filter Spec.in_complex costed)
         /\ cat_count (simple cats) + cat_count (medium cats)
            + cat_count (complex cats) + length (filter Spec.is_nan costed)
            = length costed
     | None => costed = []
     end
  /\ (forall (sqrt : Q -> Q) (numeric : list session),
        match dict_get "categories"
                (AnalyzeExperience.analyze_costs sqrt (Spec.analyzer numeric)) with
        | Some (Categories cats) =>
            Float.cost_categories (Spec.with_number_cost <$> numeric) = Some cats
        | _ => Float.cost_categories (Spec.with_number_cost <$> numeric) = None
        end
        /\ BasicStats.analyze_costs sqrt numeric
           = AnalyzeExperience.analyze_costs sqrt (Spec.analyzer numeric)).
Proof.
  intros costed. split_and!.
  - intros c Hc. pose proof (float_trichotomy c) as H.
    by rewrite decide_False in H.
  - cbn. tauto.
  - cbn. tauto.
  - cbn. tauto.
  - unfold Float.cost_categories.
    rewrite costed_executions_float_all_costs. fold costed.
    destruct costed as [|c costs] eqn:Hc; [done |].
    cbn [nonempty simple medium complex cat_count].
    split_and!;
      [done | apply filter_length_iff; intros x; apply float_categories .. |].
    match goal with
    | |- ?n1 + ?n2 + ?n3 + _ = _ =>
        assert (E1 : n1 = length (filter Spec.in_simple (c :: costs)))
          by (apply filter_length_iff; intros x; apply float_categories);
        assert (E2 : n2 = length (filter Spec.in_medium (c :: costs)))
          by (apply filter_length_iff; intros x; apply float_categories);
        assert (E3 : n3 = length (filter Spec.in_complex (c :: costs)))
          by (apply filter_length_iff; intros x; apply float_categories)
    end.
    rewrite E1, E2, E3. apply float_category_counts.
  - intros sqrt numeric. split; [| done].
    pose proof (analyze_costs_categories sqrt numeric) as Hblock.
    cbn zeta in Hblock.
    unfold Float.cost_categories.
    rewrite costed_executions_float_all_costs, costed_executions_with_number_cost.
    rewrite (filter_length_numbers _ Spec.is_simple) by done.
    rewrite (filter_length_numbers _ Spec.is_medium) by done.
    rewrite (filter_length_numbers _ Spec.is_complex) by done.
    destruct (dict_get "categories" _) as [[st|cats]|].
    + by rewrite Hblock.
    + destruct Hblock as [Hne ->].
      by destruct (Spec.costed_executions numeric).
    + by rewrite Hblock.
Qed.

(** The amended C2 on two executions and one completion. *)
Lemma success_rate_characterised_witness :
  (BasicStats.success_rate
     (BasicStats.get_summary [rec "execute"; rec "execute"; rec "complete"]) <= 1)%Q.
Proof.
  apply (success_rate_characterised [rec "execute"; rec "execute"; rec "complete"]).
  vm_compute. lia.
Defined.

(** ** Further examples *)

(** A single cost is reported as recorded, while the average is rounded. *)
Example single_cost_not_rounded :
  dict_get "execute"
    (AnalyzeExperience.analyze_costs Py.sqrt_micro
       (Spec.analyzer [rec_cost "execute" 0.123]))
  = Some (ActionStats
            {| cs_count := 1; cs_total := 0.12%Q; cs_avg := 0.12%Q;
               cs_min := 0.12%Q; cs_max := 0.12%Q; cs_median := 0.123%Q;
               cs_stdev := 0%Q |}).
Proof. reflexivity. Qed.

Example single_cost_agent_type :
  dict_get "unknown"
    (AnalyzeExperience.analyze_agent_types
       (Spec.analyzer [rec_cost "execute" 0.123; rec "complete"]))
  = Some {| AnalyzeExperience.at_count := 1;
            AnalyzeExperience.at_success := 1;
            AnalyzeExperience.at_failed := 0;
            AnalyzeExperience.at_success_rate := 1%Q;
            AnalyzeExperience.avg_cost := 0.12%Q;
            AnalyzeExperience.min_cost := 0.12%Q;
            AnalyzeExperience.max_cost := 0.12%Q;
            AnalyzeExperience.median_cost := 0.123%Q |}.
Proof. reflexivity. Qed.

(** An action named ["categories"] shares its key with the category block:
    alone it leaves its statistics there, and the block replaces them as
    soon as a costed execution exists. *)
Example categories_key_collision :
  (exists st,
     dict_get "categories"
       (AnalyzeExperience.analyze_costs Py.sqrt_micro
          (Spec.analyzer [rec_cost "categories" 0.50]))
     = Some (ActionStats st))
  /\ (exists cats,
        dict_get "categories"
          (AnalyzeExperience.analyze_costs Py.sqrt_micro
             (Spec.analyzer [rec_cost "categories" 0.50; rec_cost "execute" 0.50]))
        = Some (Categories cats)).
Proof. split; eexists; reflexivity. Qed.

(** The band between the two thresholds: a success rate of 3/4 triggers
    neither message. *)
Example success_rate_band :
  AnalyzeExperience.generate_recommendations
    (Spec.analyzer [rec "execute"; rec "execute"; rec "execute"; rec "execute";
                    rec "complete"; rec "complete"; rec "complete"])
  = [].
Proof. by vm_compute. Qed.

(** ** Success metrics: counting outcomes *)

Lemma elem_of_ids_with (act sid : string) (sessions : list session) :
  sid ∈ Spec.ids_with act sessions <-> Spec.has_record act sid sessions.
Proof.
  unfold Spec.ids_with, Spec.has_record.
  rewrite elem_of_list_to_set, list_elem_of_omap, Exists_exists.
  split.
  - intros (s & Hin & Hs). apply list_elem_of_filter in Hin as [? ?]. eauto.
  - intros (s & Hin & Ha & Hs). exists s. split; [| done].
    by apply list_elem_of_filter.
Qed.

(** The values of a table that satisfy a test are as many as the keys that
    hold such a value. *)
Lemma count_values {V} (P : V -> Prop) `{!forall v, Decision (P v)}
    (m : gmap string V) :
  length (filter P (map_to_list m).*2)
  = size (filter (fun kv : string * V => P kv.2) m).
Proof.
  induction m as [|k v m Hk IH] using map_ind.
  - by rewrite map_to_list_empty, map_filter_empty, map_size_empty.
  - rewrite map_to_list_insert by done.
    cbn [fmap list_fmap snd]. rewrite filter_cons.
    change (list_fmap _ _ snd (map_to_list m)) with ((map_to_list m).*2).
    destruct (decide (P v)) as [Hv|Hv].
    + rewrite map_filter_insert_True by done.
      rewrite map_size_insert_None by (by rewrite map_lookup_filter_None; left).
      cbn. by rewrite IH.
    + rewrite map_filter_insert_not' by (done || (intros y Hy; congruence)).
      by rewrite IH.
Qed.

Lemma outcome_keys (o : AnalyzeExperience.outcome) (sessions : list session) :
  dom (filter (fun kv : string * AnalyzeExperience.outcome => kv.2 = o)
              (AnalyzeExperience.session_outcomes (Spec.analyzer sessions)))
  = match o with
    | AnalyzeExperience.Failed => Spec.ids_with "failed" sessions
    | AnalyzeExperience.Success =>
        Spec.ids_with "complete" sessions ∖ Spec.ids_with "failed" sessions
    end.
Proof.
  apply set_eq. intros sid.
  rewrite elem_of_dom. unfold is_Some.
  setoid_rewrite map_lookup_filter_Some. cbn [snd].
  setoid_rewrite session_outcomes_lookup.
  destruct o; rewrite ?elem_of_difference, !elem_of_ids_with.
  - split.
    + intros (x & Hx & ->). repeat case_decide; try done.
    + intros [Hc Hf]. exists AnalyzeExperience.Success.
      by rewrite decide_False, decide_True.
  - split.
    + intros (x & Hx & ->). repeat case_decide; try done.
    + intros Hf. exists AnalyzeExperience.Failed. by rewrite decide_True.
Qed.

Lemma outcomes_dom (sessions : list session) :
  dom (AnalyzeExperience.session_outcomes (Spec.analyzer sessions))
  = Spec.ids_with "complete" sessions ∪ Spec.ids_with "failed" sessions.
Proof.
  apply set_eq. intros sid.
  rewrite elem_of_dom, session_outcomes_lookup, elem_of_union, !elem_of_ids_with.
  repeat case_decide; split; try tauto; try (by intros [? ?]); eauto.
Qed.

Lemma analyze_success_sizes (sessions : list session) :
  let r := AnalyzeExperience.analyze_success (Spec.analyzer sessions) in
  AnalyzeExperience.sm_failed r = size (Spec.ids_with "failed" sessions)
  /\ AnalyzeExperience.successful r
     = size (Spec.ids_with "complete" sessions ∖ Spec.ids_with "failed" sessions)
  /\ AnalyzeExperience.total_attempts r
     = size (Spec.ids_with "complete" sessions ∪ Spec.ids_with "failed" sessions).
Proof.
  cbn zeta. unfold AnalyzeExperience.analyze_success.
  cbn [AnalyzeExperience.sm_failed AnalyzeExperience.successful
       AnalyzeExperience.total_attempts].
  rewrite !count_values, <- !size_dom.
  rewrite (outcome_keys AnalyzeExperience.Failed),
    (outcome_keys AnalyzeExperience.Success), outcomes_dom.
  done.
Qed.

(** X1: the success analysis counts distinct non-empty session ids: [failed]
    is the number of ids with a [failed] record, [successful] the number of
    ids with a [complete] record and no [failed] one, and [total_attempts]
    the number of ids with either; so the total is the sum of the two. *)
Theorem analyze_success_counts (sessions : list session) :
  let r := AnalyzeExperience.analyze_success (Spec.analyzer sessions) in
  AnalyzeExperience.sm_failed r = size (Spec.ids_with "failed" sessions)
  /\ AnalyzeExperience.successful r
     = size (Spec.ids_with "complete" sessions ∖ Spec.ids_with "failed" sessions)
  /\ AnalyzeExperience.total_attempts r
     = size (Spec.ids_with "complete" sessions ∪ Spec.ids_with "failed" sessions)
  /\ AnalyzeExperience.total_attempts r
     = AnalyzeExperience.successful r + AnalyzeExperience.sm_failed r.
Proof.
  intros r. destruct (analyze_success_sizes sessions) as (Hf & Hs & Ht).
  fold r in Hf, Hs, Ht. split_and!; try done.
  rewrite Ht, Hs, Hf, (comm_L (∪)), size_union_alt. lia.
Qed.

Lemma ratio_unit (c t : nat) :
  c <= t ->
  (0 <= Py.round (inject_Z (Z.of_nat c) / inject_Z (Z.of_nat t)) 2)%Q
  /\ (Py.round (inject_Z (Z.of_nat c) / inject_Z (Z.of_nat t)) 2 <= 1)%Q.
Proof.
  intros Hle. split.
  - apply (round_lower _ 0), ratio_nonneg.
  - apply (round_upper _ 1), ratio_le_1. by right.
Qed.

(** X2: unlike the summary's rate, the success and failure rates of the
    success analysis always lie between 0 and 1. *)
Theorem analyze_success_rates_bounded (sessions : list session) :
  let r := AnalyzeExperience.analyze_success (Spec.analyzer sessions) in
  (0 <= AnalyzeExperience.sm_success_rate r)%Q
  /\ (AnalyzeExperience.sm_success_rate r <= 1)%Q
  /\ (0 <= AnalyzeExperience.failure_rate r)%Q
  /\ (AnalyzeExperience.failure_rate r <= 1)%Q.
Proof.
  intros r.
  destruct (analyze_success_sizes sessions) as (Hf & Hs & Ht). fold r in Hf, Hs, Ht.
  assert (Hsum : AnalyzeExperience.total_attempts r
                 = AnalyzeExperience.successful r + AnalyzeExperience.sm_failed r).
  { rewrite Ht, Hs, Hf, (comm_L (∪)), size_union_alt. lia. }
  clear Hf Hs Ht. subst r. revert Hsum.
  unfold AnalyzeExperience.analyze_success.
  cbn [AnalyzeExperience.sm_failed AnalyzeExperience.successful
       AnalyzeExperience.total_attempts AnalyzeExperience.sm_success_rate
       AnalyzeExperience.failure_rate].
  intros Hsum. case_decide; [| done].
  split_and!; apply ratio_unit; lia.
Qed.

Lemma session_outcomes_Permutation (ss ss' : list session) :
  ss ≡ₚ ss' ->
  AnalyzeExperience.session_outcomes (Spec.analyzer ss)
  = AnalyzeExperience.session_outcomes (Spec.analyzer ss').
Proof.
  intros Hp. apply map_eq. intros sid.
  rewrite !session_outcomes_lookup. unfold Spec.has_record.
  repeat case_decide; try done;
    match goal with
    | H : Exists _ ss |- _ => rewrite Hp in H; done
    | H : Exists _ ss' |- _ => rewrite <- Hp in H; done
    end.
Qed.

(** X3: the success analysis does not depend on the order of the records:
    two logs with the same records in any order get the same result. *)
Theorem analyze_success_order_independent (ss ss' : list session) :
  ss ≡ₚ ss' ->
  AnalyzeExperience.analyze_success (Spec.analyzer ss)
  = AnalyzeExperience.analyze_success (Spec.analyzer ss').
Proof.
  intros Hp. unfold AnalyzeExperience.analyze_success.
  by rewrite (session_outcomes_Permutation ss ss' Hp).
Qed.

(** X3 on a session whose failure and completion are swapped. *)
Lemma analyze_success_order_independent_witness :
  AnalyzeExperience.analyze_success
    (Spec.analyzer [rec_id "failed" "s1"; rec_id "complete" "s1"])
  = AnalyzeExperience.analyze_success
      (Spec.analyzer [rec_id "complete" "s1"; rec_id "failed" "s1"]).
Proof.
  apply analyze_success_order_independent. apply Permutation_swap.
Defined.

(** ** Resume patterns: totals and buckets *)

Lemma counter_step_sum (m : gmap string nat) (k : string) :
  sum_list (map_to_list (<[k := S (default 0 (m !! k))]> m)).*2
  = S (sum_list (map_to_list m).*2).
Proof.
  destruct (m !! k) as [n|] eqn:Hk; cbn [default].
  - rewrite <- insert_delete_eq.
    rewrite map_to_list_insert by apply lookup_delete_eq.
    rewrite <- (map_to_list_delete m k n Hk). done.
  - rewrite map_to_list_insert by done. done.
Qed.

Lemma counter_fold_sum (l : list session) (m : gmap string nat) :
  sum_list (map_to_list
              (foldl (fun (m : gmap string nat) s =>
                        match truthy (session_id s) with
                        | Some sid => <[sid := S (default 0 (m !! sid))]> m
                        | None => m
                        end) m l)).*2
  = sum_list (map_to_list m).*2
    + length (omap (fun s => truthy (session_id s)) l).
Proof.
  revert m. induction l as [|s l IH]; intros m; cbn [foldl omap list_omap].
  - cbn. lia.
  - rewrite IH. destruct (truthy (session_id s)).
    + rewrite counter_step_sum. cbn. lia.
    + done.
Qed.

Lemma counter_fold_positive (l : list session) (m : gmap string nat) :
  map_Forall (fun _ n => 1 <= n) m ->
  map_Forall (fun _ n => 1 <= n)
    (foldl (fun (m : gmap string nat) s =>
              match truthy (session_id s) with
              | Some sid => <[sid := S (default 0 (m !! sid))]> m
              | None => m
              end) m l).
Proof.
  revert m. induction l as [|s l IH]; intros m Hm; cbn [foldl]; [done |].
  apply IH. destruct (truthy (session_id s)); [| done].
  apply map_Forall_insert_2; [lia | done].
Qed.

Lemma positive_buckets (counts : list nat) :
  Forall (fun n => 1 <= n) counts ->
  length (filter (fun c => c = 1) counts)
  + length (filter (fun c => 2 <= c) counts)
  = length counts
  /\ length counts <= sum_list counts
  /\ max_list counts <= sum_list counts.
Proof.
  induction 1 as [|n counts Hn _ IH]; [done |].
  rewrite !filter_cons. cbn [sum_list_with max_list_with length].
  destruct IH as (IH1 & IH2 & IH3). change (id n) with n.
  destruct (decide (n = 1)), (decide (2 <= n)); cbn [length]; lia.
Qed.

Lemma session_resumes_values (sessions : list session) :
  let counts :=
    (map_to_list (AnalyzeExperience.session_resumes (Spec.analyzer sessions))).*2 in
  sum_list counts = length (Spec.resumed_ids sessions)
  /\ length counts = Spec.resumed_sessions sessions
  /\ Forall (fun n => 1 <= n) counts.
Proof.
  intros counts. subst counts. split_and!.
  - unfold AnalyzeExperience.session_resumes, Spec.resumed_ids.
    cbn [AnalyzeExperience.sessions Spec.analyzer].
    by rewrite counter_fold_sum, map_to_list_empty.
  - by rewrite length_fmap, length_map_to_list, session_resumes_size.
  - assert (Hpos : map_Forall (fun _ n => 1 <= n)
                     (AnalyzeExperience.session_resumes (Spec.analyzer sessions))).
    { apply counter_fold_positive, map_Forall_empty. }
    apply map_Forall_to_list in Hpos.
    apply Forall_fmap. eapply Forall_impl; [apply Hpos |].
    by intros [k n].
Qed.

(** X4: [total_resumes] is the number of [resume] records that carry a
    non-empty session id, and [sessions_with_resumes] the number of distinct
    such ids, which never exceeds the total. *)
Theorem analyze_resumes_totals (sessions : list session) :
  let r := AnalyzeExperience.analyze_resumes (Spec.analyzer sessions) in
  AnalyzeExperience.total_resumes r = length (Spec.resumed_ids sessions)
  /\ AnalyzeExperience.sessions_with_resumes r = Spec.resumed_sessions sessions
  /\ AnalyzeExperience.sessions_with_resumes r <= AnalyzeExperience.total_resumes r.
Proof.
  intros r. subst r. unfold AnalyzeExperience.analyze_resumes.
  destruct (session_resumes_values sessions) as (Hsum & Hlen & Hpos).
  destruct (positive_buckets _ Hpos) as (_ & Hle & _).
  case_decide as He.
  - apply session_resumes_empty in He. unfold Spec.resumed_sessions.
    rewrite He. done.
  - cbn [AnalyzeExperience.total_resumes AnalyzeExperience.sessions_with_resumes].
    rewrite session_resumes_size. split_and!; [done | done | lia].
Qed.

(** X5: when a distribution is reported, its [1_resume] and [2+_resumes]
    buckets add up to [sessions_with_resumes] (every counted session has at
    least one resume), and the maximum lies between 1 and the total. *)
Theorem analyze_resumes_buckets (sessions : list session) :
  let r := AnalyzeExperience.analyze_resumes (Spec.analyzer sessions) in
  match AnalyzeExperience.distribution r, AnalyzeExperience.max_resumes r with
  | Some d, Some mx =>
      AnalyzeExperience.one_resume d + AnalyzeExperience.two_plus_resumes d
      = AnalyzeExperience.sessions_with_resumes r
      /\ 1 <= mx <= AnalyzeExperience.total_resumes r
  | None, None => Spec.resumed_ids sessions = []
  | _, _ => False
  end.
Proof.
  intros r. subst r. unfold AnalyzeExperience.analyze_resumes.
  destruct (session_resumes_values sessions) as (Hsum & Hlen & Hpos).
  destruct (positive_buckets _ Hpos) as (Hb & Hle & Hmax).
  case_decide as He.
  - by apply session_resumes_empty.
  - cbn [AnalyzeExperience.distribution AnalyzeExperience.max_resumes
         AnalyzeExperience.one_resume AnalyzeExperience.two_plus_resumes
         AnalyzeExperience.sessions_with_resumes AnalyzeExperience.total_resumes].
    rewrite Hb, length_fmap, length_map_to_list. split_and!; [done | | done].
    set (counts := (map_to_list _).*2) in *.
    assert (counts <> []) as Hne.
    { intros Hnil. apply He, map_size_empty_inv.
      rewrite <- length_map_to_list, <- (length_fmap snd).
      fold counts. by rewrite Hnil. }
    pose proof (max_list_elem_of counts Hne) as Hin.
    by apply (proj1 (Forall_forall _ _) Hpos).
Qed.

(** ** Recommendations: the remaining rules *)

Lemma most_common_None (items : list (string * AnalyzeExperience.agent_type_stats)) :
  AnalyzeExperience.most_common items = None -> items = [].
Proof. by destruct items. Qed.

(** The first entry of largest count. *)
Lemma most_common_first_max
    (items : list (string * AnalyzeExperience.agent_type_stats))
    (best : string * AnalyzeExperience.agent_type_stats) :
  AnalyzeExperience.most_common items = Some best ->
  exists pre post,
    items = pre ++ best :: post
    /\ Forall (fun p => AnalyzeExperience.at_count p.2
                        < AnalyzeExperience.at_count best.2) pre
    /\ Forall (fun p => AnalyzeExperience.at_count p.2
                        <= AnalyzeExperience.at_count best.2) post.
Proof.
  destruct items as [|x rest]; [done |].
  cbn [AnalyzeExperience.most_common]. intros [= <-].
  induction rest as [|y rest IH] using rev_ind.
  - exists [], []. by split_and!.
  - rewrite foldl_snoc. destruct IH as (pre & post & Heq & Hpre & Hpost).
    set (b := foldl _ x rest) in *.
    case_decide as Hlt.
    + exists (x :: rest), []. split_and!; [by rewrite app_comm_cons | | done].
      rewrite Heq. apply Forall_app. split.
      * eapply Forall_impl; [apply Hpre |]. intros p Hp. cbn in *. lia.
      * constructor; [done |].
        eapply Forall_impl; [apply Hpost |]. intros p Hp. cbn in *. lia.
    + exists pre, (post ++ [y]).
      split_and!; [by rewrite app_comm_cons, Heq, <- app_assoc | done |].
      apply Forall_app. split; [done |]. constructor; [lia | done].
Qed.

(** The recommendations, rule by rule. *)
Lemma generate_recommendations_parts (self : AnalyzeExperience.ExperienceAnalyzer) :
  let rate :=
    AnalyzeExperience.success_rate (AnalyzeExperience.get_summary self) in
  let avg_cost :=
    AnalyzeExperience.avg_cost_per_agent (AnalyzeExperience.get_summary self) in
  let avg_resumes :=
    AnalyzeExperience.avg_resumes_per_session (AnalyzeExperience.analyze_resumes self) in
  let types := AnalyzeExperience.analyze_agent_types self in
  AnalyzeExperience.generate_recommendations self
  = (if decide (rate < 0.70)%Q then [AnalyzeExperience.LowSuccessRate]
     else if decide (0.85 <= rate)%Q then [AnalyzeExperience.HighSuccessRate]
     else [])
    ++ (if decide (0.50 < avg_cost)%Q
        then [AnalyzeExperience.HighAverageCost avg_cost] else [])
    ++ (if decide (2 < avg_resumes)%Q
        then [AnalyzeExperience.HighResumeCount avg_resumes] else [])
    ++ (if decide (3 < length types)
        then match AnalyzeExperience.most_common types with
             | Some (t, st) =>
                 [AnalyzeExperience.MostCommonType t (AnalyzeExperience.at_count st)]
             | None => []
             end
        else [])
    ++ (if decide (length (AnalyzeExperience.sessions self) < 5)
        then [AnalyzeExperience.LimitedHistory] else []).
Proof.
  intros rate avg_cost avg_resumes types.
  unfold AnalyzeExperience.generate_recommendations.
  fold rate avg_cost avg_resumes types.
  set (r0 := if decide (rate < 0.70)%Q then _ else _).
  destruct (decide (0.50 < avg_cost)%Q), (decide (2 < avg_resumes)%Q),
    (decide (3 < length types)),
    (decide (length (AnalyzeExperience.sessions self) < 5));
    try destruct (AnalyzeExperience.most_common types) as [[t st]|];
    by rewrite ?app_nil_r, <- ?app_assoc.
Qed.

Lemma elem_of_if_singleton {A} (P : Prop) `{!Decision P} (x y : A) :
  x ∈ (if decide P then [y] else []) <-> x = y /\ P.
Proof.
  case_decide.
  - rewrite list_elem_of_singleton. tauto.
  - rewrite elem_of_nil. tauto.
Qed.

Lemma elem_of_rate_notes (rate : Q) (x : AnalyzeExperience.recommendation) :
  x ∈ (if decide (rate < 0.70)%Q then [AnalyzeExperience.LowSuccessRate]
       else if decide (0.85 <= rate)%Q then [AnalyzeExperience.HighSuccessRate]
       else []) ->
  x = AnalyzeExperience.LowSuccessRate \/ x = AnalyzeExperience.HighSuccessRate.
Proof.
  repeat case_decide; rewrite ?list_elem_of_singleton, ?elem_of_nil; tauto.
Qed.

Lemma elem_of_template_note
    (types : list (string * AnalyzeExperience.agent_type_stats))
    (x : AnalyzeExperience.recommendation) :
  x ∈ (if decide (3 < length types)
       then match AnalyzeExperience.most_common types with
            | Some (t, st) =>
                [AnalyzeExperience.MostCommonType t (AnalyzeExperience.at_count st)]
            | None => []
            end
       else [])
  <-> 3 < length types
      /\ exists t st, AnalyzeExperience.most_common types = Some (t, st)
                      /\ x = AnalyzeExperience.MostCommonType t
                                (AnalyzeExperience.at_count st).
Proof.
  case_decide as Hlen.
  - destruct (AnalyzeExperience.most_common types) as [[t st]|] eqn:Hm.
    + rewrite list_elem_of_singleton. split.
      * intros ->. eauto.
      * intros (_ & t' & st' & [= <- <-] & ->). done.
    + apply most_common_None in Hm. rewrite Hm in Hlen. cbn in Hlen. lia.
  - rewrite elem_of_nil. tauto.
Qed.

(** X6: each of the remaining advisory rules fires exactly under its
    condition: the cost note when the average cost per agent exceeds 0.50,
    the resume note when the average number of resumes exceeds 2, the
    template note when more than 3 agent types were executed, and the
    limited-history note when the log has fewer than 5 records; the notes
    carry the averages they were triggered by. *)
Theorem recommendation_rules (self : AnalyzeExperience.ExperienceAnalyzer) :
  let recs := AnalyzeExperience.generate_recommendations self in
  let avg_cost :=
    AnalyzeExperience.avg_cost_per_agent (AnalyzeExperience.get_summary self) in
  let avg_resumes :=
    AnalyzeExperience.avg_resumes_per_session (AnalyzeExperience.analyze_resumes self) in
  (forall c, AnalyzeExperience.HighAverageCost c ∈ recs
             <-> c = avg_cost /\ (0.50 < avg_cost)%Q)
  /\ (forall a, AnalyzeExperience.HighResumeCount a ∈ recs
                <-> a = avg_resumes /\ (2 < avg_resumes)%Q)
  /\ ((exists t n, AnalyzeExperience.MostCommonType t n ∈ recs)
      <-> 3 < length (AnalyzeExperience.analyze_agent_types self))
  /\ (AnalyzeExperience.LimitedHistory ∈ recs
      <-> length (AnalyzeExperience.sessions self) < 5).
Proof.
  intros recs avg_cost avg_resumes. subst recs.
  rewrite generate_recommendations_parts. cbn zeta.
  fold avg_cost avg_resumes.
  set (types := AnalyzeExperience.analyze_agent_types self).
  set (r0 := if decide (_ < 0.70)%Q then _ else _).
  assert (Hin : forall x,
            x ∈ r0 ++ (if decide (0.50 < avg_cost)%Q
                       then [AnalyzeExperience.HighAverageCost avg_cost] else [])
                 ++ (if decide (2 < avg_resumes)%Q
                     then [AnalyzeExperience.HighResumeCount avg_resumes] else [])
                 ++ (if decide (3 < length types)
                     then match AnalyzeExperience.most_common types with
                          | Some (t, st) =>
                              [AnalyzeExperience.MostCommonType t
                                 (AnalyzeExperience.at_count st)]
                          | None => []
                          end
                     else [])
                 ++ (if decide (length (AnalyzeExperience.sessions self) < 5)
                     then [AnalyzeExperience.LimitedHistory] else [])
            <-> x ∈ r0
                \/ (x = AnalyzeExperience.HighAverageCost avg_cost
                    /\ (0.50 < avg_cost)%Q)
                \/ (x = AnalyzeExperience.HighResumeCount avg_resumes
                    /\ (2 < avg_resumes)%Q)
                \/ (3 < length types
                    /\ exists t st,
                         AnalyzeExperience.most_common types = Some (t, st)
                         /\ x = AnalyzeExperience.MostCommonType t
                                   (AnalyzeExperience.at_count st))
                \/ (x = AnalyzeExperience.LimitedHistory
                    /\ length (AnalyzeExperience.sessions self) < 5)).
  { intros x.
    by rewrite !elem_of_app, !elem_of_if_singleton, elem_of_template_note. }
  split_and!.
  - intros c. rewrite Hin. split.
    + intros [H0|[[[= ->] ?]|[[? ?]|[(_ & t & st & _ & ?)|[? ?]]]]];
        try discriminate; [| done].
      apply elem_of_rate_notes in H0 as [?|?]; discriminate.
    + intros [-> ?]. right. by left.
  - intros a. rewrite Hin. split.
    + intros [H0|[[? ?]|[[[= ->] ?]|[(_ & t & st & _ & ?)|[? ?]]]]];
        try discriminate; [| done].
      apply elem_of_rate_notes in H0 as [?|?]; discriminate.
    + intros [-> ?]. right. right. by left.
  - split.
    + intros (t & n & H). apply Hin in H.
      destruct H as [H0|[[? ?]|[[? ?]|[(? & _)|[? ?]]]]];
        try discriminate; [| done].
      apply elem_of_rate_notes in H0 as [?|?]; discriminate.
    + intros Hlen.
      destruct (AnalyzeExperience.most_common types) as [[t st]|] eqn:Hm.
      * exists t, (AnalyzeExperience.at_count st). apply Hin.
        right. right. right. left. split; [done |]. eauto.
      * apply most_common_None in Hm. rewrite Hm in Hlen. cbn in Hlen. lia.
  - rewrite Hin. split.
    + intros [H0|[[? ?]|[[? ?]|[(_ & t & st & _ & ?)|[? ?]]]]];
        try discriminate; [| done].
      apply elem_of_rate_notes in H0 as [?|?]; discriminate.
    + intros ?. do 4 right. done.
Qed.

(** X7: the advisory messages come in the fixed order of the rules, each
    rule at most once: their ranks are strictly increasing, so a report
    never holds more than five messages. *)
Theorem recommendations_in_rule_order (self : AnalyzeExperience.ExperienceAnalyzer) :
  let recs := AnalyzeExperience.generate_recommendations self in
  StronglySorted lt (Spec.rank <$> recs) /\ length recs <= 5.
Proof.
  intros recs. subst recs. rewrite generate_recommendations_parts. cbn zeta.
  repeat case_decide;
    try destruct (AnalyzeExperience.most_common _) as [[t st]|];
    cbn; (split; [repeat constructor; lia | lia]).
Qed.

(** X8: the agent type named by the template note is the first entry of
    largest execution count among the reported agent types, and the note
    carries that count. *)
Theorem most_common_type_is_first_maximum
    (self : AnalyzeExperience.ExperienceAnalyzer) (t : string) (n : nat) :
  AnalyzeExperience.MostCommonType t n
    ∈ AnalyzeExperience.generate_recommendations self ->
  exists st pre post,
    AnalyzeExperience.analyze_agent_types self = pre ++ (t, st) :: post
    /\ AnalyzeExperience.at_count st = n
    /\ Forall (fun p => AnalyzeExperience.at_count p.2 < n) pre
    /\ Forall (fun p => AnalyzeExperience.at_count p.2 <= n) post.
Proof.
  rewrite generate_recommendations_parts. cbn zeta.
  rewrite !elem_of_app, !elem_of_if_singleton, elem_of_template_note.
  intros [H0|[[? ?]|[[? ?]|[(_ & t' & st & Hm & [= -> ->])|[? ?]]]]];
    try discriminate.
  - apply elem_of_rate_notes in H0 as [?|?]; discriminate.
  - apply most_common_first_max in Hm as (pre & post & Heq & Hpre & Hpost).
    by exists st, pre, post.
Qed.

(** X8 on a log with four agent types, the second executed twice. *)
Lemma most_common_type_is_first_maximum_witness :
  let self := Spec.analyzer
                [rec_type "execute" "a"; rec_type "execute" "b";
                 rec_type "execute" "c"; rec_type "execute" "d";
                 rec_type "execute" "b"; rec_type "execute" "d"] in
  exists st pre post,
    AnalyzeExperience.analyze_agent_types self = pre ++ ("b", st) :: post
    /\ AnalyzeExperience.at_count st = 2
    /\ Forall (fun p => AnalyzeExperience.at_count p.2 < 2) pre
    /\ Forall (fun p => AnalyzeExperience.at_count p.2 <= 2) post.
Proof.
  intros self.
  apply (most_common_type_is_first_maximum self "b" 2).
  vm_compute. repeat constructor.
Defined.

(** ** Agent types: what each entry counts *)

Lemma count_typed_cons (act t : string) (s : session) (ss : list session) :
  Spec.count_typed act t (s :: ss)
  = (if decide (action s = Some act /\ default "unknown" (agent_type s) = t)
     then 1 else 0)
    + Spec.count_typed act t ss.
Proof.
  unfold Spec.count_typed. rewrite filter_cons. by case_decide.
Qed.

(** One record moves its count from the table to come to the table so
    far. *)
Lemma type_data_step_counts (t : string) (s : session) (ss : list session)
    (d : list (string * AnalyzeExperience.type_entry)) :
  let e' := default AnalyzeExperience.type_entry_new
              (dict_get t (AnalyzeExperience.type_data_step d s)) in
  let e := default AnalyzeExperience.type_entry_new (dict_get t d) in
  AnalyzeExperience.td_count e' + Spec.count_typed "execute" t ss
  = AnalyzeExperience.td_count e + Spec.count_typed "execute" t (s :: ss)
  /\ AnalyzeExperience.td_success e' + Spec.count_typed "complete" t ss
     = AnalyzeExperience.td_success e + Spec.count_typed "complete" t (s :: ss)
  /\ AnalyzeExperience.td_failed e' + Spec.count_typed "failed" t ss
     = AnalyzeExperience.td_failed e + Spec.count_typed "failed" t (s :: ss).
Proof.
  cbn zeta. rewrite !count_typed_cons. unfold AnalyzeExperience.type_data_step.
  destruct (decide (action s = Some "execute")) as [He|He];
    [| destruct (decide (action s = Some "complete")) as [Hc|Hc];
       [| destruct (decide (action s = Some "failed")) as [Hf|Hf]]];
    rewrite ?dict_get_set;
    destruct (decide (default "unknown" (agent_type s) = t)) as [Ht|Ht].
  all: repeat match goal with
              | |- context [decide (?P /\ ?Q)] =>
                  destruct (decide (P /\ Q)) as [[? ?]|?]
              end.
  all: try congruence.
  all: try tauto.
  all: try subst t; cbn; lia.
Qed.

Lemma type_data_counts (sessions : list session)
    (d : list (string * AnalyzeExperience.type_entry)) (t : string)
    (data : AnalyzeExperience.type_entry) :
  dict_get t (foldl AnalyzeExperience.type_data_step d sessions) = Some data ->
  let e := default AnalyzeExperience.type_entry_new (dict_get t d) in
  AnalyzeExperience.td_count data
  = AnalyzeExperience.td_count e + Spec.count_typed "execute" t sessions
  /\ AnalyzeExperience.td_success data
     = AnalyzeExperience.td_success e + Spec.count_typed "complete" t sessions
  /\ AnalyzeExperience.td_failed data
     = AnalyzeExperience.td_failed e + Spec.count_typed "failed" t sessions.
Proof.
  revert d. induction sessions as [|s ss IH]; intros d Hd; cbn zeta.
  - cbn in Hd. rewrite Hd. cbn. unfold Spec.count_typed. cbn. lia.
  - cbn [foldl] in Hd. destruct (IH _ Hd) as (H1 & H2 & H3).
    destruct (type_data_step_counts t s ss d) as (S1 & S2 & S3).
    cbn zeta in *. lia.
Qed.

Lemma type_data_step_present (t : string) (s : session)
    (d : list (string * AnalyzeExperience.type_entry)) :
  is_Some (dict_get t d)
  \/ (action s = Some "execute" /\ default "unknown" (agent_type s) = t) ->
  is_Some (dict_get t (AnalyzeExperience.type_data_step d s)).
Proof.
  unfold AnalyzeExperience.type_data_step.
  intros [Hd|[He <-]].
  - repeat case_decide; try done; rewrite dict_get_set; by case_decide.
  - rewrite decide_True by done. by rewrite dict_get_set_eq.
Qed.

Lemma type_data_present (sessions : list session)
    (d : list (string * AnalyzeExperience.type_entry)) (t : string) :
  is_Some (dict_get t d) \/ 0 < Spec.count_typed "execute" t sessions ->
  is_Some (dict_get t (foldl AnalyzeExperience.type_data_step d sessions)).
Proof.
  revert d. induction sessions as [|s ss IH]; intros d Hd.
  - destruct Hd as [?|Hd]; [done |]. unfold Spec.count_typed in Hd. cbn in Hd. lia.
  - cbn [foldl]. apply IH. rewrite count_typed_cons in Hd.
    destruct (decide (action s = Some "execute"
                      /\ default "unknown" (agent_type s) = t)) as [Hs|Hs].
    + left. apply type_data_step_present. by right.
    + destruct Hd as [Hd|Hd]; [| right; lia].
      left. apply type_data_step_present. by left.
Qed.

(** X9: the by-agent-type analysis reports exactly the agent types with at
    least one [execute] record (a record without [agent_type] counts under
    ["unknown"]); the entry of a type holds the numbers of its [execute],
    [complete] and [failed] records and is computed from the costs of its
    [execute] records, in file order. *)
Theorem analyze_agent_types_entries (sessions : list session) (t : string) :
  match dict_get t (AnalyzeExperience.analyze_agent_types (Spec.analyzer sessions)) with
  | Some st =>
      0 < Spec.count_typed "execute" t sessions
      /\ st = AnalyzeExperience.agent_type_entry
                {| AnalyzeExperience.td_count := Spec.count_typed "execute" t sessions;
                   AnalyzeExperience.td_costs := Spec.costs_of_agent_type t sessions;
                   AnalyzeExperience.td_success := Spec.count_typed "complete" t sessions;
                   AnalyzeExperience.td_failed := Spec.count_typed "failed" t sessions |}
  | None => Spec.count_typed "execute" t sessions = 0
  end.
Proof.
  unfold AnalyzeExperience.analyze_agent_types.
  cbn [AnalyzeExperience.sessions Spec.analyzer].
  rewrite (dict_collect_lookup _
             (fun data => if decide (0 < AnalyzeExperience.td_count data)
                          then Some (AnalyzeExperience.agent_type_entry data)
                          else None));
    [| intros r k x; by case_decide | apply type_data_NoDup; constructor].
  destruct (dict_get t (foldl _ [] sessions)) as [data|] eqn:Hd; cbn.
  - pose proof (type_data_counts _ _ _ _ Hd) as (H1 & H2 & H3).
    pose proof (type_data_costs _ _ _ _ Hd) as H4.
    cbn in H1, H2, H3, H4.
    case_decide as Hpos.
    + split; [lia |]. f_equal. destruct data; cbn in *. by subst.
    + lia.
  - destruct (decide (0 < Spec.count_typed "execute" t sessions)) as [Hpos|]; [| lia].
    assert (is_Some (dict_get t (foldl AnalyzeExperience.type_data_step [] sessions)))
      as [? Hsome] by (apply type_data_present; by right).
    congruence.
Qed.

Lemma dict_set_fresh {V} (k : string) (v : V) (d : list (string * V)) :
  k ∉ d.*1 -> dict_set k v d = d ++ [(k, v)].
Proof.
  induction d as [|[k' v'] d IH]; cbn [dict_set fmap list_fmap fst app]; [done |].
  rewrite not_elem_of_cons. intros [Hne Hnin].
  rewrite decide_False by done. f_equal. by apply IH.
Qed.

Section CollectList.
Context {A B : Type}.
Variable f : list (string * B) -> string * A -> list (string * B).
Variable sel : A -> option B.
Hypothesis f_step : forall r k x,
  f r (k, x) = match sel x with
               | Some y => dict_set k y r
               | None => r
               end.

(** A result mapping filled from a table with distinct keys lists the
    selected entries in the order of the table. *)
Lemma dict_collect_list (d : list (string * A)) (r : list (string * B)) :
  NoDup d.*1 -> (forall k, k ∈ d.*1 -> k ∉ r.*1) ->
  foldl f r d = r ++ omap (fun p => (fun y => (p.1, y)) <$> sel p.2) d.
Proof.
  revert r. induction d as [|[k x] d IH]; intros r Hnd Hfresh.
  - cbn. by rewrite app_nil_r.
  - cbn [fmap list_fmap fst] in Hnd, Hfresh.
    apply NoDup_cons in Hnd as [Hk Hnd].
    cbn [foldl omap list_omap fst snd]. rewrite f_step.
    destruct (sel x) as [y|]; cbn.
    + rewrite dict_set_fresh by (apply Hfresh, elem_of_cons; by left).
      rewrite IH; [by rewrite <- app_assoc | done |].
      intros k' Hk'. rewrite fmap_app, elem_of_app. cbn.
      rewrite list_elem_of_singleton. intros [Hin| ->]; [| done].
      revert Hin. apply Hfresh, elem_of_cons. by right.
    + apply IH; [done |]. intros k' Hk'. apply Hfresh, elem_of_cons. by right.
Qed.
End CollectList.

Lemma dict_set_sum {V} (g : V -> nat) (k : string) (v : V) (d : list (string * V)) :
  sum_list_with (fun p => g p.2) (dict_set k v d)
  + match dict_get k d with Some old => g old | None => 0 end
  = sum_list_with (fun p => g p.2) d + g v.
Proof.
  induction d as [|[k' v'] d IH]; cbn [dict_set dict_get sum_list_with snd].
  - lia.
  - case_decide; cbn [sum_list_with snd]; lia.
Qed.

Lemma type_data_sum (sessions : list session)
    (d : list (string * AnalyzeExperience.type_entry)) :
  sum_list_with (fun p => AnalyzeExperience.td_count p.2)
    (foldl AnalyzeExperience.type_data_step d sessions)
  = sum_list_with (fun p => AnalyzeExperience.td_count p.2) d
    + Spec.count_action "execute" sessions.
Proof.
  revert d. induction sessions as [|s ss IH]; intros d.
  - unfold Spec.count_action. cbn. lia.
  - cbn [foldl]. rewrite IH. unfold Spec.count_action. rewrite filter_cons.
    unfold AnalyzeExperience.type_data_step.
    set (k := default "unknown" (agent_type s)).
    set (e := default AnalyzeExperience.type_entry_new (dict_get k d)).
    assert (He' : match dict_get k d with
                  | Some old => AnalyzeExperience.td_count old
                  | None => 0
                  end = AnalyzeExperience.td_count e).
    { subst e. by destruct (dict_get k d). }
    destruct (decide (action s = Some "execute")) as [He|He];
      [| destruct (decide (action s = Some "complete")) as [Hc|Hc];
         [| destruct (decide (action s = Some "failed")) as [Hf|Hf]]];
      try match goal with
          | |- context [dict_set k ?v d] =>
              pose proof (dict_set_sum AnalyzeExperience.td_count k v d) as Hs;
              rewrite He' in Hs; cbn [AnalyzeExperience.td_count] in Hs
          end;
      cbn [length]; lia.
Qed.

Lemma agent_types_sum (type_data : list (string * AnalyzeExperience.type_entry)) :
  sum_list_with (fun p => AnalyzeExperience.at_count p.2)
    (omap (fun p : string * AnalyzeExperience.type_entry =>
             (fun y => (p.1, y))
             <$> (if decide (0 < AnalyzeExperience.td_count p.2)
                  then Some (AnalyzeExperience.agent_type_entry p.2)
                  else None)) type_data)
  = sum_list_with (fun p => AnalyzeExperience.td_count p.2) type_data.
Proof.
  induction type_data as [|[k x] d IH]; [done |].
  cbn [omap list_omap sum_list_with fst snd].
  case_decide; cbn [fmap option_fmap option_map sum_list_with snd]; cbn; lia.
Qed.

(** X10: the execution counts of the reported agent types add up to the
    summary's [total_executions]: every [execute] record is counted under
    exactly one agent type. *)
Theorem agent_type_counts_add_up (sessions : list session) :
  sum_list_with (fun p => AnalyzeExperience.at_count p.2)
    (AnalyzeExperience.analyze_agent_types (Spec.analyzer sessions))
  = AnalyzeExperience.total_executions
      (AnalyzeExperience.get_summary (Spec.analyzer sessions)).
Proof.
  unfold AnalyzeExperience.analyze_agent_types.
  cbn [AnalyzeExperience.sessions Spec.analyzer
       AnalyzeExperience.get_summary AnalyzeExperience.total_executions].
  rewrite (dict_collect_list _
             (fun data => if decide (0 < AnalyzeExperience.td_count data)
                          then Some (AnalyzeExperience.agent_type_entry data)
                          else None)).
  - cbn [app]. rewrite agent_types_sum, type_data_sum. done.
  - intros r k x. by case_decide.
  - apply type_data_NoDup. constructor.
  - intros k _. apply not_elem_of_nil.
Qed.

(** ** Cost statistics: what each entry counts *)

Lemma analyze_costs_lookup (sqrt : Q -> Q) (sessions : list session) (a : string) :
  a <> "categories" ->
  dict_get a (AnalyzeExperience.analyze_costs sqrt (Spec.analyzer sessions))
  = if nonempty (Spec.costs_of_action a sessions)
    then Some (ActionStats
                 (AnalyzeExperience.action_entry sqrt (Spec.costs_of_action a sessions)))
    else None.
Proof.
  intros Ha. unfold AnalyzeExperience.analyze_costs.
  cbn [AnalyzeExperience.sessions Spec.analyzer].
  set (result := foldl _ [] (foldl AnalyzeExperience.costs_by_action_step [] sessions)).
  assert (Hres : dict_get a result
                 = if nonempty (Spec.costs_of_action a sessions)
                   then Some (ActionStats
                                (AnalyzeExperience.action_entry sqrt
                                   (Spec.costs_of_action a sessions)))
                   else None).
  { subst result.
    rewrite (dict_collect_lookup _
               (fun costs => if nonempty costs
                             then Some (ActionStats (AnalyzeExperience.action_entry sqrt costs))
                             else None)).
    - rewrite costs_by_action_lookup. cbn [dict_get].
      by destruct (Spec.costs_of_action a sessions).
    - intros r k x. by destruct (nonempty x).
    - apply costs_by_action_NoDup. constructor. }
  destruct (nonempty (map _ _)); [| done].
  by rewrite dict_get_set_ne.
Qed.

(** X11: for every action key other than ["categories"], the cost analysis
    has an entry exactly when some record of that action carries a cost (a
    record without [action] counts under ["unknown"]), and the entry is
    computed from the costs of those records in file order; its [count] is
    their number. *)
Theorem analyze_costs_entries (sqrt : Q -> Q) (sessions : list session)
    (a : string) :
  a <> "categories" ->
  match dict_get a (AnalyzeExperience.analyze_costs sqrt (Spec.analyzer sessions)) with
  | Some (ActionStats st) =>
      Spec.costs_of_action a sessions <> []
      /\ st = AnalyzeExperience.action_entry sqrt (Spec.costs_of_action a sessions)
      /\ cs_count st = length (Spec.costs_of_action a sessions)
  | Some (Categories _) => False
  | None => Spec.costs_of_action a sessions = []
  end.
Proof.
  intros Ha. rewrite analyze_costs_lookup by done.
  by destruct (Spec.costs_of_action a sessions).
Qed.

(** X11 on a log with two costed resumes. *)
Lemma analyze_costs_entries_witness :
  exists st,
    dict_get "resume"
      (AnalyzeExperience.analyze_costs Py.sqrt_micro
         (Spec.analyzer [rec_cost "resume" 0.10; rec "execute"; rec_cost "resume" 0.30]))
    = Some (ActionStats st)
    /\ cs_count st = 2.
Proof.
  pose proof (analyze_costs_entries Py.sqrt_micro
                [rec_cost "resume" 0.10; rec "execute"; rec_cost "resume" 0.30]
                "resume" ltac:(discriminate)) as H.
  destruct (dict_get "resume" _) as [[st|c]|] eqn:Hst.
  - exists st. split; [done |]. by destruct H as (_ & _ & ->).
  - done.
  - discriminate H.
Defined.

(** ** Summary: counts and costs *)

(** X13: the summary of [basic_stats] counts every record once: the
    executions, completions, failures and the records of any other action
    (or of none) add up to [total_sessions]. *)
Theorem summary_counts_partition (sessions : list session) :
  let s := BasicStats.get_summary sessions in
  BasicStats.total_executions s + BasicStats.completed s + BasicStats.failed s
  + length (filter (fun r => action r <> Some "execute"
                             /\ action r <> Some "complete"
                             /\ action r <> Some "failed") sessions)
  = BasicStats.total_sessions s.
Proof.
  cbn. induction sessions as [|r rs IH]; [done |].
  rewrite !filter_cons.
  destruct (decide (action r = Some "execute")) as [He|He];
    destruct (decide (action r = Some "complete")) as [Hc|Hc];
    destruct (decide (action r = Some "failed")) as [Hf|Hf];
    try congruence;
    try (rewrite decide_False by tauto); try (rewrite decide_True by tauto);
    cbn [length]; lia.
Qed.

(** X14: on the same records the two tools report the same summary, except
    that [basic_stats] adds [total_sessions] and rounds the success rate to
    two decimals. *)
Theorem summaries_agree (sessions : list session) :
  let a := AnalyzeExperience.get_summary (Spec.analyzer sessions) in
  let b := BasicStats.get_summary sessions in
  BasicStats.total_sessions b = length sessions
  /\ BasicStats.total_executions b = AnalyzeExperience.total_executions a
  /\ BasicStats.completed b = AnalyzeExperience.completed a
  /\ BasicStats.failed b = AnalyzeExperience.failed a
  /\ (BasicStats.success_rate b == Py.round (AnalyzeExperience.success_rate a) 2)%Q
  /\ BasicStats.total_cost_usd b = AnalyzeExperience.total_cost_usd a
  /\ BasicStats.avg_cost_per_agent b = AnalyzeExperience.avg_cost_per_agent a.
Proof.
  cbn. split_and!; try done.
  by destruct (filter (fun s => action s = Some "execute") sessions).
Qed.

Lemma sum_nonneg (l : list Q) (a : Q) :
  (0 <= a)%Q -> Forall (fun c => (0 <= c)%Q) l -> (0 <= foldl Qplus a l)%Q.
Proof.
  intros Ha Hl. revert a Ha. induction Hl as [|c l Hc _ IH]; intros a Ha; [done |].
  cbn [foldl]. apply IH.
  replace 0%Q with (0 + 0)%Q by done. by apply Qplus_le_compat.
Qed.

(** X15: when no recorded cost is negative, neither the total cost nor the
    average cost per agent is negative, in either tool. *)
Theorem costs_nonnegative (sessions : list session) :
  Forall (fun c => (0 <= c)%Q) (Spec.present_costs sessions) ->
  let a := AnalyzeExperience.get_summary (Spec.analyzer sessions) in
  let b := BasicStats.get_summary sessions in
  (0 <= AnalyzeExperience.total_cost_usd a)%Q
  /\ (0 <= AnalyzeExperience.avg_cost_per_agent a)%Q
  /\ (0 <= BasicStats.total_cost_usd b)%Q
  /\ (0 <= BasicStats.avg_cost_per_agent b)%Q.
Proof.
  intros Hpos. cbn. rewrite costs_with_field.
  assert (Hsum : (0 <= Py.sum (Spec.present_costs sessions))%Q)
    by (by apply sum_nonneg).
  assert (Htot : (0 <= Py.round (Py.sum (Spec.present_costs sessions)) 2)%Q)
    by apply (round_lower _ 0), Hsum.
  assert (Havg : (0 <= (if nonempty (filter (fun s => action s = Some "complete") sessions)
                        then Py.round
                               (Py.sum (Spec.present_costs sessions)
                                / Py.len (filter (fun s => action s = Some "complete")
                                                 sessions)) 2
                        else 0))%Q).
  { destruct (nonempty _); [| done].
    apply (round_lower _ 0). apply Qmult_le_0_compat; [done |].
    apply Qinv_le_0_compat. unfold Py.len, Qle. cbn. lia. }
  done.
Qed.

(** X15 on two costed executions and one completion. *)
Lemma costs_nonnegative_witness :
  (0 <= AnalyzeExperience.avg_cost_per_agent
          (AnalyzeExperience.get_summary
             (Spec.analyzer [rec_cost "execute" 0.10; rec_cost "execute" 0.20;
                             rec "complete"])))%Q.
Proof.
  apply (costs_nonnegative [rec_cost "execute" 0.10; rec_cost "execute" 0.20;
                            rec "complete"]).
  repeat constructor; by vm_compute.
Defined.

(** ** Loading and reporting together *)

(** X16: one malformed line anywhere in the log makes [basic_stats] print
    the "no history" document, whatever the other lines hold, with one
    error on the error channel. *)
Theorem basic_stats_malformed_is_no_history
    (sqrt : Q -> Q) (fs : string -> option (list string))
    (json_loads : string -> option session)
    (file : string) (lines : list string) :
  fs file = Some lines ->
  Exists (Spec.malformed json_loads) lines ->
  BasicStats.main sqrt fs json_loads file
  = ({| BasicStats.status := "no_history";
        BasicStats.message := Some "No session history found";
        BasicStats.summary_of :=
          {| BasicStats.total_sessions := 0;
             BasicStats.total_executions := 0;
             BasicStats.completed := 0;
             BasicStats.failed := 0;
             BasicStats.success_rate := 0%Q;
             BasicStats.total_cost_usd := 0%Q;
             BasicStats.avg_cost_per_agent := 0%Q |};
        BasicStats.agent_types := [];
        BasicStats.cost_patterns := [] |},
      [BasicStats.Error_malformed_json file]).
Proof.
  intros Hfs Hm. unfold BasicStats.main, BasicStats.load_sessions.
  rewrite Hfs, read_lines_spec. by rewrite bool_decide_eq_true_2.
Qed.

(** X16 on a log whose last line is cut short. *)
Lemma basic_stats_malformed_is_no_history_witness :
  BasicStats.status
    (BasicStats.main Py.sqrt_micro
       (fun _ => Some [Json.line "{'action': 'execute'}";
                       Json.line "{'action': 'complete'}";
                       Json.line "{'action': "])
       Json.loads "sessions.jsonl").1
  = "no_history".
Proof.
  rewrite (basic_stats_malformed_is_no_history Py.sqrt_micro _ Json.loads
             "sessions.jsonl" _ eq_refl).
  - reflexivity.
  - do 2 apply Exists_cons_tl. apply Exists_cons_hd. split; reflexivity.
Defined.

Lemma read_lines_skip_blank (json_loads : string -> option session)
    (lines : list string) (acc : list session) :
  read_lines json_loads (filter (fun line => blank line = false) lines) acc
  = read_lines json_loads lines acc.
Proof.
  revert acc. induction lines as [|line rest IH]; intros acc; [done |].
  rewrite filter_cons. cbn [read_lines].
  destruct (blank line) eqn:Hb.
  - rewrite decide_False by done. apply IH.
  - rewrite decide_True by done. cbn [read_lines]. rewrite Hb.
    destruct (json_loads line); [apply IH | done].
Qed.

(** X18: blank lines do not matter: both loaders return the same records
    and diagnostics for a file and for the file without its blank lines. *)
Theorem blank_lines_ignored
    (json_loads : string -> option session) (file : string)
    (lines : list string) :
  let fs := fun _ : string => Some lines in
  let fs' := fun _ : string => Some (filter (fun line => blank line = false) lines) in
  AnalyzeExperience.init fs' json_loads file
  = AnalyzeExperience.init fs json_loads file
  /\ BasicStats.load_sessions fs' json_loads file
     = BasicStats.load_sessions fs json_loads file.
Proof.
  cbn zeta. unfold AnalyzeExperience.init, AnalyzeExperience.load_sessions,
    BasicStats.load_sessions.
  by rewrite !read_lines_skip_blank.
Qed.

Lemma before_malformed_prefix (json_loads : string -> option session)
    (lines : list string) :
  Spec.before_malformed json_loads lines `prefix_of` lines.
Proof.
  induction lines as [|line rest IH]; [done |].
  cbn [Spec.before_malformed]. case_decide.
  - apply prefix_nil.
  - by apply prefix_cons.
Qed.

(** X19: what [analyze_experience] loads is always a prefix of the records
    of the valid lines, in file order, and what [basic_stats] loads is
    either all of them or nothing. *)
Theorem loaded_records_are_a_prefix
    (fs : string -> option (list string))
    (json_loads : string -> option session)
    (file : string) (lines : list string) :
  fs file = Some lines ->
  AnalyzeExperience.sessions (AnalyzeExperience.init fs json_loads file).1
    `prefix_of` Spec.valid_records json_loads lines
  /\ ((BasicStats.load_sessions fs json_loads file).1
      = Spec.valid_records json_loads lines
      \/ (BasicStats.load_sessions fs json_loads file).1 = []).
Proof.
  intros Hfs.
  unfold AnalyzeExperience.init, AnalyzeExperience.load_sessions,
    BasicStats.load_sessions.
  cbn [AnalyzeExperience.sessions_file AnalyzeExperience.sessions].
  rewrite Hfs, read_lines_spec. cbn [app fst AnalyzeExperience.sessions].
  split.
  - destruct (before_malformed_prefix json_loads lines) as [rest Hrest].
    rewrite Hrest at 2. unfold Spec.valid_records.
    rewrite filter_app, omap_app. by apply prefix_app_r.
  - destruct (decide (Exists (Spec.malformed json_loads) lines)) as [Hm|Hm].
    + rewrite bool_decide_eq_true_2 by done. by right.
    + rewrite bool_decide_eq_false_2 by done. left. cbn [fst].
      by rewrite before_malformed_all.
Qed.

(** X19 on a log with a malformed line in the middle. *)
Lemma loaded_records_are_a_prefix_witness :
  let lines := [Json.line "{'action': 'execute'}"; Json.line "oops";
                Json.line "{'action': 'complete'}"] in
  AnalyzeExperience.sessions
    (AnalyzeExperience.init (fun _ => Some lines) Json.loads "sessions.jsonl").1
    `prefix_of` Spec.valid_records Json.loads lines.
Proof.
  intros lines.
  apply (loaded_records_are_a_prefix (fun _ => Some lines) Json.loads
           "sessions.jsonl" lines eq_refl).
Defined.

(** ** The two by-agent-type analyses *)

Section DictMap.
Context {V W : Type}.
Variable g : V -> W.

Lemma dict_get_fmap (k : string) (d : list (string * V)) :
  dict_get k ((fun p => (p.1, g p.2)) <$> d) = g <$> dict_get k d.
Proof.
  induction d as [|[k' v] d IH]; [done |].
  cbn [fmap list_fmap dict_get fst snd]. by case_decide.
Qed.

Lemma dict_set_fmap (k : string) (v : V) (d : list (string * V)) :
  dict_set k (g v) ((fun p => (p.1, g p.2)) <$> d)
  = (fun p => (p.1, g p.2)) <$> dict_set k v d.
Proof.
  induction d as [|[k' v'] d IH]; [done |].
  cbn [fmap list_fmap dict_set fst snd]. case_decide; [done |].
  cbn [fmap list_fmap fst snd]. f_equal. apply IH.
Qed.
End DictMap.

Lemma type_data_step_copy (d : list (string * AnalyzeExperience.type_entry))
    (s : session) :
  BasicStats.type_data_step ((fun p => (p.1, Spec.copy_entry p.2)) <$> d) s
  = (fun p => (p.1, Spec.copy_entry p.2)) <$> AnalyzeExperience.type_data_step d s.
Proof.
  unfold BasicStats.type_data_step, AnalyzeExperience.type_data_step.
  rewrite dict_get_fmap.
  repeat case_decide; try done;
    rewrite <- dict_set_fmap; f_equal;
    by destruct (dict_get _ d).
Qed.

Lemma type_data_copy (sessions : list session)
    (d : list (string * AnalyzeExperience.type_entry)) :
  foldl BasicStats.type_data_step ((fun p => (p.1, Spec.copy_entry p.2)) <$> d) sessions
  = (fun p => (p.1, Spec.copy_entry p.2))
    <$> foldl AnalyzeExperience.type_data_step d sessions.
Proof.
  revert d. induction sessions as [|s ss IH]; intros d; [done |].
  cbn [foldl]. by rewrite type_data_step_copy, IH.
Qed.

Lemma agent_type_entry_copy (data : AnalyzeExperience.type_entry) :
  0 < AnalyzeExperience.td_count data ->
  BasicStats.agent_type_entry (Spec.copy_entry data)
  = Spec.rounded_entry (AnalyzeExperience.agent_type_entry data).
Proof.
  intros Hpos.
  unfold BasicStats.agent_type_entry, AnalyzeExperience.agent_type_entry,
    Spec.rounded_entry, Spec.copy_entry. cbn.
  by rewrite !decide_True by done.
Qed.

(** X20: on the same records, [basic_stats] reports the agent types of
    [analyze_experience], in the same order and with the same entries,
    except that each success rate is rounded to two decimals. *)
Theorem agent_types_agree (sessions : list session) :
  BasicStats.analyze_agent_types sessions
  = (fun p => (p.1, Spec.rounded_entry p.2))
    <$> AnalyzeExperience.analyze_agent_types (Spec.analyzer sessions).
Proof.
  unfold BasicStats.analyze_agent_types, AnalyzeExperience.analyze_agent_types.
  cbn [AnalyzeExperience.sessions Spec.analyzer].
  change (@nil (string * BasicStats.type_entry))
    with ((fun p => (p.1, Spec.copy_entry p.2))
          <$> (@nil (string * AnalyzeExperience.type_entry))).
  rewrite type_data_copy.
  set (td := foldl AnalyzeExperience.type_data_step [] sessions).
  assert (Hnd : NoDup td.*1) by (apply type_data_NoDup; constructor).
  rewrite (dict_collect_list _
             (fun data => if decide (0 < BasicStats.td_count data)
                          then Some (BasicStats.agent_type_entry data)
                          else None));
    [| intros r k x; by case_decide
     | by rewrite <- list_fmap_compose
     | intros k _; apply not_elem_of_nil].
  rewrite (dict_collect_list _
             (fun data => if decide (0 < AnalyzeExperience.td_count data)
                          then Some (AnalyzeExperience.agent_type_entry data)
                          else None));
    [| intros r k x; by case_decide | done | intros k _; apply not_elem_of_nil].
  cbn [app]. clear Hnd.
  induction td as [|[k data] td IH]; [done |].
  cbn [fmap list_fmap omap list_omap fst snd Spec.copy_entry BasicStats.td_count].
  case_decide as Hpos; cbn.
  - rewrite agent_type_entry_copy by done. f_equal. apply IH.
  - apply IH.
Qed.

(** ** Aggregators together *)

(** X21: a log without any [execute] record, or without any [complete]
    record, has success rate 0 and therefore always gets the
    low-success-rate warning, as the first message. *)
Theorem no_completion_warns (sessions : list session) :
  Spec.count_action "execute" sessions = 0
  \/ Spec.count_action "complete" sessions = 0 ->
  exists rest,
    AnalyzeExperience.generate_recommendations (Spec.analyzer sessions)
    = AnalyzeExperience.LowSuccessRate :: rest.
Proof.
  intros Hz. rewrite generate_recommendations_parts. cbn zeta.
  assert (Hrate : (AnalyzeExperience.success_rate
                     (AnalyzeExperience.get_summary (Spec.analyzer sessions))
                   < 0.70)%Q).
  { unfold Spec.count_action in Hz. cbn.
    destruct (filter (fun s => action s = Some "execute") sessions) as [|e es];
      [done |].
    destruct Hz as [Hz|Hz]; [done |].
    apply length_zero_iff_nil in Hz. rewrite Hz. done. }
  rewrite decide_True by done. cbn [app]. eauto.
Qed.

(** X21 on a log of executions only. *)
Lemma no_completion_warns_witness :
  exists rest,
    AnalyzeExperience.generate_recommendations
      (Spec.analyzer [rec "execute"; rec "execute"])
    = AnalyzeExperience.LowSuccessRate :: rest.
Proof.
  apply (no_completion_warns [rec "execute"; rec "execute"]).
  right. reflexivity.
Defined.

Lemma size_list_to_set_le (l : list string) :
  size (list_to_set l : gset string) <= length l.
Proof.
  induction l as [|x l IH]; [done |].
  rewrite list_to_set_cons, size_union_alt, size_singleton. cbn [length].
  pose proof (subseteq_size (list_to_set l ∖ {[x]}) (list_to_set l : gset string)
                ltac:(apply subseteq_difference_l; done)).
  lia.
Qed.

Lemma ids_with_le (act : string) (sessions : list session) :
  size (Spec.ids_with act sessions) <= Spec.count_action act sessions.
Proof.
  unfold Spec.ids_with, Spec.count_action.
  etrans; [apply size_list_to_set_le |].
  generalize (filter (fun s => action s = Some act) sessions). intros l.
  induction l as [|s l IH]; [done |].
  cbn [omap list_omap length]. destruct (truthy (session_id s)); cbn; lia.
Qed.

(** X22: the success analysis counts sessions, not records: it never
    reports more failed sessions than the summary counts [failed] records,
    nor more successful sessions than [complete] records. *)
Theorem success_counts_bounded_by_summary (sessions : list session) :
  let r := AnalyzeExperience.analyze_success (Spec.analyzer sessions) in
  let s := AnalyzeExperience.get_summary (Spec.analyzer sessions) in
  AnalyzeExperience.sm_failed r <= AnalyzeExperience.failed s
  /\ AnalyzeExperience.successful r <= AnalyzeExperience.completed s
  /\ AnalyzeExperience.total_attempts r
     <= AnalyzeExperience.completed s + AnalyzeExperience.failed s.
Proof.
  intros r s.
  destruct (analyze_success_sizes sessions) as (Hf & Hs & Ht).
  fold r in Hf, Hs, Ht.
  assert (Hsum : AnalyzeExperience.total_attempts r
                 = AnalyzeExperience.successful r + AnalyzeExperience.sm_failed r).
  { rewrite Ht, Hs, Hf, (comm_L (∪)), size_union_alt. lia. }
  pose proof (ids_with_le "failed" sessions) as Hfl.
  pose proof (ids_with_le "complete" sessions) as Hcl.
  pose proof (subseteq_size
                (Spec.ids_with "complete" sessions ∖ Spec.ids_with "failed" sessions)
                (Spec.ids_with "complete" sessions)
                ltac:(apply subseteq_difference_l; done)) as Hd.
  clearbody r. unfold Spec.count_action in *. subst s. cbn. lia.
Qed.

(** ** Statistics over short cost lists *)

(** Every costed [execute] record of an agent type is one of its
    [execute] records. *)
Lemma costs_of_agent_type_length (t : string) (sessions : list session) :
  length (Spec.costs_of_agent_type t sessions)
  <= Spec.count_typed "execute" t sessions.
Proof.
  induction sessions as [|s ss IH]; [done |].
  rewrite costs_of_agent_type_cons, count_typed_cons.
  destruct (decide (action s = Some "execute"
                    /\ default "unknown" (agent_type s) = t)); [| lia].
  destruct (cost_usd s); cbn [length]; lia.
Qed.

(** An agent type with an [execute] record has an entry. *)
Lemma analyze_agent_types_present (sessions : list session) (t : string) :
  0 < Spec.count_typed "execute" t sessions ->
  is_Some (dict_get t (AnalyzeExperience.analyze_agent_types (Spec.analyzer sessions))).
Proof.
  intros Hpos. unfold AnalyzeExperience.analyze_agent_types.
  cbn [AnalyzeExperience.sessions Spec.analyzer].
  rewrite (dict_collect_lookup _
             (fun data => if decide (0 < AnalyzeExperience.td_count data)
                          then Some (AnalyzeExperience.agent_type_entry data)
                          else None));
    [| intros r k x; by case_decide | apply type_data_NoDup; constructor].
  destruct (type_data_present sessions [] t ltac:(by right)) as [data Hd].
  rewrite Hd. cbn.
  pose proof (type_data_counts _ _ _ _ Hd) as (H1 & _ & _). cbn in H1.
  rewrite decide_True by lia. done.
Qed.

(** C7: in the per-action cost statistics, the standard deviation over a
    cost list with fewer than two elements is exactly 0 and the median over
    a list with exactly one element is that element, as it was recorded; in
    the per-agent-type statistics the median over a list with exactly one
    element is that element.  The entries in question exist: every action
    other than ["categories"] with at least one cost has its statistics,
    and every agent type with exactly one cost has its entry. *)
Theorem single_cost_statistics (sqrt : Q -> Q) (sessions : list session) :
  (forall a st,
     dict_get a (AnalyzeExperience.analyze_costs sqrt (Spec.analyzer sessions))
     = Some (ActionStats st) ->
     cs_count st = length (Spec.costs_of_action a sessions)
     /\ (length (Spec.costs_of_action a sessions) < 2 -> cs_stdev st = 0%Q)
     /\ (forall c, Spec.costs_of_action a sessions = [c] -> cs_median st = c))
  /\ (forall a,
        a <> "categories" ->
        Spec.costs_of_action a sessions <> [] ->
        exists st,
          dict_get a (AnalyzeExperience.analyze_costs sqrt (Spec.analyzer sessions))
          = Some (ActionStats st)
          /\ cs_count st = length (Spec.costs_of_action a sessions)
          /\ (length (Spec.costs_of_action a sessions) < 2 -> cs_stdev st = 0%Q)
          /\ (forall c, Spec.costs_of_action a sessions = [c] -> cs_median st = c))
  /\ (forall t st,
        dict_get t (AnalyzeExperience.analyze_agent_types (Spec.analyzer sessions))
        = Some st ->
        forall c, Spec.costs_of_agent_type t sessions = [c] ->
                  AnalyzeExperience.median_cost st = c)
  /\ (forall t c,
        Spec.costs_of_agent_type t sessions = [c] ->
        exists st,
          dict_get t (AnalyzeExperience.analyze_agent_types (Spec.analyzer sessions))
          = Some st
          /\ AnalyzeExperience.median_cost st = c).
Proof.
  assert (Hact : forall a st,
     dict_get a (AnalyzeExperience.analyze_costs sqrt (Spec.analyzer sessions))
     = Some (ActionStats st) ->
     cs_count st = length (Spec.costs_of_action a sessions)
     /\ (length (Spec.costs_of_action a sessions) < 2 -> cs_stdev st = 0%Q)
     /\ (forall c, Spec.costs_of_action a sessions = [c] -> cs_median st = c)).
  { intros a st Hst.
    apply analyze_costs_stats_lookup in Hst as [Hne ->].
    split_and!.
    - done.
    - intros Hlen. unfold AnalyzeExperience.action_entry; cbn.
      destruct (Spec.costs_of_action a sessions) as [|c [|c' cs]]; cbn in *;
        [done | done | lia].
    - intros c ->. done. }
  assert (Htype : forall t st,
     dict_get t (AnalyzeExperience.analyze_agent_types (Spec.analyzer sessions))
     = Some st ->
     forall c, Spec.costs_of_agent_type t sessions = [c] ->
               AnalyzeExperience.median_cost st = c).
  { intros t st Hst c Hc.
    apply analyze_agent_types_lookup in Hst as (data & -> & Hcosts).
    unfold AnalyzeExperience.agent_type_entry; cbn.
    rewrite Hcosts, Hc. done. }
  split_and!; [done | | done |].
  - intros a Ha Hne.
    pose proof (analyze_costs_lookup sqrt sessions a Ha) as Hlook.
    destruct (Spec.costs_of_action a sessions) as [|c cs] eqn:Hcs; [done |].
    cbn [nonempty] in Hlook.
    eexists. split; [exact Hlook |].
    apply Hact in Hlook. by rewrite Hcs in Hlook.
  - intros t c Hc.
    destruct (analyze_agent_types_present sessions t) as [st Hst].
    { pose proof (costs_of_agent_type_length t sessions) as Hlen.
      rewrite Hc in Hlen. cbn in Hlen. lia. }
    exists st. split; [done |]. by apply (Htype t st Hst).
Qed.

(** C7 on a log with a single costed execution: the [execute] action and
    the agent type ["unknown"] both have their entry, with the recorded
    cost as median. *)
Lemma single_cost_statistics_witness :
  let sessions := [rec_cost "execute" 0.25; rec_cost "resume" 0.10;
                   rec_cost "resume" 0.30] in
  (exists st,
     dict_get "execute"
       (AnalyzeExperience.analyze_costs Py.sqrt_micro (Spec.analyzer sessions))
     = Some (ActionStats st)
     /\ cs_stdev st = 0%Q /\ cs_median st = 0.25%Q)
  /\ (exists st,
        dict_get "unknown"
          (AnalyzeExperience.analyze_agent_types (Spec.analyzer sessions))
        = Some st
        /\ AnalyzeExperience.median_cost st = 0.25%Q).
Proof.
  intros sessions.
  pose proof (single_cost_statistics Py.sqrt_micro sessions)
    as (_ & Hact & _ & Htype).
  split.
  - destruct (Hact "execute") as (st & Hst & _ & Hdev & Hmed);
      [done | vm_compute; done |].
    exists st. split_and!; [done | apply Hdev; vm_compute; lia | by apply Hmed].
  - by apply (Htype "unknown" 0.25%Q).
Defined.
